(** * Recruiting pipeline UI: board, eligibility badge, checklist and chat persister

    A shallow embedding of the pipeline core of the front end
    (KanbanBoard.tsx, CandidateCard.tsx, InterviewHelper.tsx,
    EvaluationChat.tsx and the role page component) together with the
    properties of its specification.

    Conventions of the embedding:
    - an optional property of a JavaScript object ([column?: string]) is an
      [option]; [None] stands for [undefined];
    - a JavaScript object used as a dictionary is a [gmap string _];
    - asynchronous handlers are functions that return the trace of the
      effects they perform, the outcome of each awaited network call being
      an argument. *)

From stdpp Require Import base strings list gmap.
From Stdlib Require Import ZArith Sorting.Sorted Sorting.Permutation OrdersEx.
From Stdlib Require Import Ascii.

Local Open Scope string_scope.
Local Open Scope list_scope.
Local Open Scope nat_scope.

(** ** JavaScript truthiness on the values that occur *)

Module Js.

(** [!!s] for [s : string | undefined]: the empty string and [undefined]
    are falsy. *)
Definition truthy (o : option string) : bool :=
  match o with
  | Some s => negb (bool_decide (s = ""))
  | None => false
  end.

(** [!!b] for [b : boolean | undefined]. *)
Definition truthyb (o : option bool) : bool :=
  match o with
  | Some b => b
  | None => false
  end.

(** [o || d] for a string default [d]. *)
Definition or_else (o : option string) (d : string) : string :=
  match o with
  | Some s => if bool_decide (s = "") then d else s
  | None => d
  end.

(** [a || b] on optional strings: [a] when it is truthy, else [b]. *)
Definition or (a b : option string) : option string :=
  if truthy a then a else b.

(** [Array.prototype.sort(cmp)]: the language requires the sort to be
    stable, so for a consistent comparator its result is the one of a
    stable insertion sort: an element moves past those that compare
    strictly smaller and stays in front of the others. *)
Section Sort.
Context {A : Type} (cmp : A -> A -> Z).

Fixpoint insert (a : A) (l : list A) : list A :=
  match l with
  | [] => [a]
  | b :: l' => if (cmp a b <=? 0)%Z then a :: b :: l' else b :: insert a l'
  end.

Fixpoint sort (l : list A) : list A :=
  match l with
  | [] => []
  | a :: l' => insert a (sort l')
  end.
End Sort.

End Js.

(** ** The candidate record, as the components read it *)

Record Candidate := mkCandidate {
  id : string;
  name : option string;
  column : option string;
  color : option string;
  sent_to_client : option bool;
  not_pushing_forward : option bool;
}.

(** [candidates.find((c) => c.id === i)] *)
Definition findCandidate (candidates : list Candidate) (i : string) : option Candidate :=
  List.find (fun c => bool_decide (id c = i)) candidates.

(** ** KanbanBoard.tsx *)

Module Kanban.

Definition COLUMN_IDS : list string := ["outreach"; "follow-up"; "evaluation"].

(** [(id) => COLUMN_IDS.includes(id)] *)
Definition isColumnId (i : string) : bool := bool_decide (i ∈ COLUMN_IDS).

(** A collision descriptor of the drag library: the droppable's id and
    the score the detector attached to it.  On this board every
    droppable id is a string: a column id or a candidate id. *)
Record Collision := mkCollision {
  cid : string;
  cvalue : Z;
}.

Definition is_column (c : Collision) : bool := isColumnId (cid c).

(** [getActiveColumn] of the board component:
    [candidates.find((c) => c.id === activeId)?.column]. *)
Definition getActiveColumn (candidates : list Candidate) (activeId : string) : option string :=
  match findCandidate candidates activeId with
  | Some c => column c
  | None => None
  end.

Section CollisionDetection.

(** The arguments of a drag frame and the three detectors of the drag
    library ([rectIntersection], [pointerWithin], [closestCorners]):
    code outside the repository, taken as given. *)
Variable Args : Type.
Variable active_id : Args -> string.
Variables rectIntersection pointerWithin closestCorners : Args -> list Collision.

Variable getActiveColumn : string -> option string.

(** The ordered fallback: first non-empty tier. *)
Definition allCollisions (args : Args) : list Collision :=
  let rectCollisions := rectIntersection args in
  let pointerCollisions := pointerWithin args in
  let cornerCollisions := closestCorners args in
  if (0 <? length rectCollisions)%nat then rectCollisions
  else if (0 <? length pointerCollisions)%nat then pointerCollisions
  else cornerCollisions.

(** [c.id !== activeColumn] *)
Definition differs (activeColumn : option string) (c : Collision) : bool :=
  negb (bool_decide (Some (cid c) = activeColumn)).

Definition columnCollisions (l : list Collision) : list Collision :=
  List.filter is_column l.

Definition otherCollisions (l : list Collision) : list Collision :=
  List.filter (fun c => negb (is_column c)) l.

Definition targetColumnCollision (activeColumn : option string)
    (l : list Collision) : option Collision :=
  List.find (differs activeColumn) (columnCollisions l).

(** The detector returned by [createKanbanCollisionDetection]. *)
Definition createKanbanCollisionDetection (args : Args) : list Collision :=
  let all := allCollisions args in
  if (length all =? 0)%nat then []
  else
    let activeColumn := getActiveColumn (active_id args) in
    if Js.truthy activeColumn && existsb is_column all then
      match targetColumnCollision activeColumn all with
      | Some t => t :: otherCollisions all
      | None => all
      end
    else all.

End CollisionDetection.

Arguments allCollisions {Args}.
Arguments createKanbanCollisionDetection {Args}.

(** *** [handleDragEnd] *)

Record DragEndEvent := mkDragEnd {
  active : string;
  over : option string;
}.

(** What the handler does to the world, in order. *)
Inductive Effect :=
| SetActiveCandidate (c : option Candidate)
| ConsoleError (msg : string)
| AxiosPut (roleId candidateId : string) (column : string) (color : option string)
| OnUpdate
| Alert (msg : string).

Definition validColumns : list string := ["outreach"; "follow-up"; "evaluation"].

(** The target column of a drop: the id dropped on when it is a column
    id, else the column of the card dropped on; [None] where the handler
    returns. *)
Definition newColumn (candidates : list Candidate) (over_id : string) : option string :=
  if bool_decide (over_id ∈ validColumns) then Some over_id
  else
    match findCandidate candidates over_id with
    | Some targetCandidate =>
        if Js.truthy (column targetCandidate) then column targetCandidate else None
    | None => None
    end.

Definition newColor (candidate : Candidate) (newColumn : string) : option string :=
  if bool_decide (newColumn = "outreach") then Some "amber-transparent"
  else if bool_decide (newColumn = "follow-up") then Some "amber-solid"
  else if bool_decide (newColumn = "evaluation") then Some "amber-solid"
  else color candidate.

(** [put_ok] is the outcome of the awaited [axios.put]. *)
Definition handleDragEnd (roleId : string) (candidates : list Candidate)
    (put_ok : bool) (event : DragEndEvent) : list Effect :=
  SetActiveCandidate None ::
  match over event with
  | None => []
  | Some over_id =>
      let candidateId := active event in
      match newColumn candidates over_id with
      | None => []
      | Some newCol =>
          match findCandidate candidates candidateId with
          | None => [ConsoleError "Candidate not found:"]
          | Some candidate =>
              if bool_decide (column candidate = Some newCol) then []
              else
                AxiosPut roleId candidateId newCol (newColor candidate newCol) ::
                (if put_ok then [OnUpdate]
                 else [ConsoleError "Error updating candidate status:";
                       Alert "Failed to move candidate. Please try again."])
          end
      end
  end.

Definition is_put (e : Effect) : bool :=
  match e with AxiosPut _ _ _ _ => true | _ => false end.

Definition is_refresh (e : Effect) : bool :=
  match e with OnUpdate => true | _ => false end.

(** *** [getColorClass] *)

Definition getColorClass (candidate : Candidate) : string :=
  if Js.truthyb (sent_to_client candidate) then "bg-green-100 border-green-500"
  else if Js.truthyb (not_pushing_forward candidate) then "bg-red-100 border-red-500"
  else
    (* switch (candidate.column) *)
    if bool_decide (column candidate = Some "outreach") then "bg-slate-100 border-slate-400"
    else if bool_decide (column candidate = Some "follow-up") then "bg-amber-100 border-amber-500"
    else if bool_decide (column candidate = Some "evaluation") then "bg-blue-100 border-blue-500"
    else "bg-slate-100 border-slate-400".

End Kanban.

(** ** The role page component *)

Module RolePage.

(** *** Display order of the candidates *)

Definition COLUMN_ORDER : gmap string Z :=
  <["outreach" := 0%Z]> (<["follow-up" := 1%Z]> (<["evaluation" := 2%Z]> ∅)).

(** [COLUMN_ORDER[a.column || 'outreach'] ?? 3] *)
Definition order (a : Candidate) : Z :=
  let col := Js.or_else (column a) "outreach" in
  default 3%Z (COLUMN_ORDER !! col).

Section DisplayOrder.

(** [String.prototype.localeCompare], the collation of the runtime. *)
Variable localeCompare : string -> string -> Z.

(** The comparator handed to [sort]. *)
Definition compareCandidates (a b : Candidate) : Z :=
  let orderA := order a in
  let orderB := order b in
  if bool_decide (orderA <> orderB) then (orderA - orderB)%Z
  else localeCompare (Js.or_else (name a) "") (Js.or_else (name b) "").

Definition sortedCandidates (candidates : list Candidate) : list Candidate :=
  Js.sort compareCandidates candidates.



End DisplayOrder.

(** *** The interview-completed badge of the selection grid *)

(** A JSON value as far as [=== true] can tell values apart. *)
Inductive JsValue :=
| JUndefined
| JNull
| JBool (b : bool)
| JNumber (z : Z)
| JString (s : string).

(** [v === true] *)
Definition strictly_true (v : JsValue) : bool :=
  match v with
  | JBool true => true
  | _ => false
  end.

Record Interview := mkInterview {
  interview_completed : JsValue;
  transcription : option string;
  summary : option string;
  candidate_responses : option (gmap string string);
}.

(** [interview && (interview.interview_completed === true ||
    !!(interview.transcription || interview.summary))] in a boolean
    position, with [interview = candidateInterviews[cand.id]]. *)
Definition hasCompletedInterview (candidateInterviews : gmap string Interview)
    (cand : Candidate) : bool :=
  match candidateInterviews !! id cand with
  | None => false
  | Some interview =>
      strictly_true (interview_completed interview)
      || Js.truthy (Js.or (transcription interview) (summary interview))
  end.

(** *** The evaluation chat and its persistence *)

Inductive ChatRole := user | assistant.

Record Message := mkMessage {
  role : ChatRole;
  content : string;
}.

Inductive Request :=
| PutEvaluationChat (roleId : string) (messages : list Message)
| DeleteEvaluationChat (roleId : string)
| PostEvaluate (roleId : option string) (question : string)
    (conversation_history : list Message).

(** A pending [setTimeout]: when it is due, and what its callback closes
    over (the role and the messages of the render that armed it). *)
Record Timer := mkTimer {
  due : nat;
  timer_role : option string;
  timer_messages : list Message;
}.

(** The part of the page the chat touches.  Time is in milliseconds;
    [requests] is the log of the network calls issued, oldest first,
    each with the time it was issued at. *)
Record Page := mkPage {
  now : nat;
  role_id : option string;
  evaluationMessages : list Message;
  timer : option Timer;
  requests : list (nat * Request);
}.

Definition set_now (t : nat) (p : Page) : Page :=
  mkPage t (role_id p) (evaluationMessages p) (timer p) (requests p).

Definition set_messages (m : list Message) (p : Page) : Page :=
  mkPage (now p) (role_id p) m (timer p) (requests p).

Definition set_timer (tm : option Timer) (p : Page) : Page :=
  mkPage (now p) (role_id p) (evaluationMessages p) tm (requests p).

Definition issue (r : Request) (p : Page) : Page :=
  mkPage (now p) (role_id p) (evaluationMessages p) (timer p)
    (requests p ++ [(now p, r)]).

(** [saveEvaluationChat], for the role [rid] of the render it belongs to. *)
Definition saveEvaluationChat (rid : option string) (messages : list Message)
    (p : Page) : Page :=
  match rid with
  | Some i => if Js.truthy rid then issue (PutEvaluationChat i messages) p else p
  | None => p
  end.

(** [persistEvaluationChatNow] *)
Definition persistEvaluationChatNow (messages : list Message) (p : Page) : Page :=
  match role_id p with
  | Some i =>
      if Js.truthy (role_id p) then issue (PutEvaluationChat i messages) p else p
  | None => p
  end.

Definition debounce : nat := 400.

(** The effect on [[role?.id, evaluationMessages]]: its body, and the
    clean-up it returned on the previous run. *)
Definition effect (p : Page) : Page :=
  if negb (Js.truthy (role_id p)) || (length (evaluationMessages p) =? 0)%nat then p
  else set_timer
         (Some (mkTimer (now p + debounce) (role_id p) (evaluationMessages p))) p.

Definition cleanup (p : Page) : Page := set_timer None p.

(** A mutation of the message list: the state is replaced, the component
    renders again, the previous effect is cleaned up and the effect runs. *)
Definition setEvaluationMessages (messages : list Message) (p : Page) : Page :=
  effect (cleanup (set_messages messages p)).

(** [d] milliseconds pass; a timer that comes due fires, once. *)
Definition elapse (d : nat) (p : Page) : Page :=
  let t := now p + d in
  match timer p with
  | Some tm =>
      if (due tm <=? t)%nat then
        set_now t
          (saveEvaluationChat (timer_role tm) (timer_messages tm)
             (set_timer None (set_now (due tm) p)))
      else set_now t p
  | None => set_now t p
  end.

Definition handleClearEvaluationChat (confirmed : bool) (p : Page) : Page :=
  if confirmed then
    let p' := setEvaluationMessages [] p in
    match role_id p' with
    | Some i => if Js.truthy (role_id p') then issue (DeleteEvaluationChat i) p' else p'
    | None => p'
    end
  else p.

(** A burst of mutations: each entry is the time since the previous
    event and the new message list. *)
Fixpoint burst (ms : list (nat * list Message)) (p : Page) : Page :=
  match ms with
  | [] => p
  | (d, m) :: ms' => burst ms' (setEvaluationMessages m (elapse d p))
  end.

(** The saves of the chat in a request log. *)
Definition puts (l : list (nat * Request)) : list (nat * list Message) :=
  omap (fun '(t, r) =>
          match r with
          | PutEvaluationChat _ m => Some (t, m)
          | _ => None
          end) l.

(** No timer, or one armed less than a full delay ago. *)
Definition fresh (p : Page) : Prop :=
  match timer p with
  | Some tm => due tm = now p + debounce
  | None => True
  end.

(** The messages a burst ends on. *)
Definition final_messages (m1 : list Message) (rest : list (nat * list Message))
    : list Message :=
  List.last (map snd rest) m1.

End RolePage.

(** ** EvaluationChat.tsx *)

Module EvaluationChat.

Import RolePage.

(** The local state of the component. *)
Record Chat := mkChat {
  input : string;
  isLoading : bool;
}.

(** The body of a successful reply of the evaluate call. *)
Record ResponseData := mkResponseData {
  response : option string;
  detail : option string;
}.

Section HandleSend.

(** [String.prototype.trim] of the runtime. *)
Variable trim : string -> string.

(** The props: [roleId], [onMessagesChange] and the optional
    [onPersistMessages]. *)
Variable roleId : option string.
Variable onMessagesChange : list Message -> Page -> Page.
Variable onPersistMessages : option (list Message -> Page -> Page).

(** [handleSend] up to its [await]: [None] where it returns at once,
    else [messagesWithUser], which the rest of the handler closes over. *)
Definition handleSend_request (messages : list Message) (c : Chat) (p : Page)
    : option (list Message * Chat * Page) :=
  if bool_decide (trim (input c) = "") || isLoading c then None
  else
    let userMessage := mkMessage user (trim (input c)) in
    let messagesWithUser := messages ++ [userMessage] in
    Some (messagesWithUser,
          mkChat "" true,
          onMessagesChange messagesWithUser
            (issue (PostEvaluate roleId (trim (input c)) messages) p)).

(** [response.data?.response ?? response.data?.detail ?? 'No response received'] *)
Definition reply_content (data : ResponseData) : string :=
  match response data with
  | Some r => r
  | None =>
      match detail data with
      | Some d => d
      | None => "No response received"
      end
  end.

(** [handleSend] after the call resolved: the handler persists, then
    the queued state update is rendered. *)
Definition handleSend_reply (messagesWithUser : list Message) (data : ResponseData)
    (c : Chat) (p : Page) : Chat * Page :=
  let assistantMessage := mkMessage assistant (reply_content data) in
  let newMessages := messagesWithUser ++ [assistantMessage] in
  let p' :=
    match onPersistMessages with
    | Some persist => persist newMessages p
    | None => p
    end in
  (mkChat (input c) false, onMessagesChange newMessages p').

End HandleSend.

End EvaluationChat.

(** ** InterviewHelper.tsx *)

Module InterviewHelper.

Record RequiredField := mkRequiredField {
  field : string;
  collected : bool;
  value : option string;
}.


(** [updateRequiredFields(responses)], the state update it queues. *)
Definition updateRequiredFields (responses : gmap string string)
    (prev : list RequiredField) : list RequiredField :=
  map (fun f =>
         mkRequiredField (field f)
           (Js.truthy (responses !! field f))
           (Js.or (responses !! field f) None))
      prev.


End InterviewHelper.

(** ** CandidateCard.tsx *)

Module CandidateCard.

Inductive Effect :=
| SetChecklist (checklist : gmap string bool)
| AxiosPut (roleId candidateId : string) (checklist : gmap string bool)
| OnUpdate
| ConsoleError (msg : string).

(** [{ ...checklist, [item]: !checklist[item] }] *)
Definition toggled (checklist : gmap string bool) (item : string) : gmap string bool :=
  <[item := negb (default false (checklist !! item))]> checklist.

(** [put_ok] is the outcome of the awaited [axios.put]. *)
Definition handleChecklistToggle (roleId candidateId : string)
    (checklist : gmap string bool) (put_ok : bool) (item : string) : list Effect :=
  let newChecklist := toggled checklist item in
  SetChecklist newChecklist ::
  AxiosPut roleId candidateId newChecklist ::
  (if put_ok then [OnUpdate]
   else [ConsoleError "Error updating checklist:"; SetChecklist checklist]).

(** The local checklist after a trace: the argument of the last
    [setChecklist]. *)
Definition checklist_after (checklist : gmap string bool) (trace : list Effect)
    : gmap string bool :=
  foldl (fun cur e => match e with SetChecklist c => c | _ => cur end) checklist trace.

Definition persisted (trace : list Effect) : list (gmap string bool) :=
  omap (fun e => match e with AxiosPut _ _ c => Some c | _ => None end) trace.

End CandidateCard.

(** ** Concrete boards, frames and conversations *)

Module Scenario.

Import Kanban.

(** A collation to run the display order with: strings compared
    character by character, by code. *)
Definition codeCompare (a b : string) : Z :=
  match String_as_OT.compare a b with
  | Lt => (-1)%Z
  | Eq => 0%Z
  | Gt => 1%Z
  end.

Definition ana : Candidate :=
  mkCandidate "cand-1" (Some "Ana") (Some "outreach") (Some "amber-transparent") None None.
Definition bo : Candidate :=
  mkCandidate "cand-2" (Some "Bo") (Some "follow-up") (Some "amber-solid") None None.
(** A record that came without a column. *)
Definition cy : Candidate :=
  mkCandidate "cand-3" (Some "Cy") None None None None.

(** A second card of the outreach column. *)
Definition dee : Candidate :=
  mkCandidate "cand-4" (Some "Dee") (Some "outreach") (Some "amber-transparent") None None.

Definition board : list Candidate := [ana; bo; cy; dee].

(** A drag frame with what the three detectors of the library found. *)
Record Frame := mkFrame {
  frame_active : string;
  frame_rect : list Collision;
  frame_pointer : list Collision;
  frame_corners : list Collision;
}.

Definition detect (candidates : list Candidate) : Frame -> list Collision :=
  createKanbanCollisionDetection frame_active frame_rect frame_pointer frame_corners
    (getActiveColumn candidates).

Definition tier : Frame -> list Collision :=
  allCollisions frame_rect frame_pointer frame_corners.

Definition col_outreach : Collision := mkCollision "outreach" 40.
Definition col_follow_up : Collision := mkCollision "follow-up" 25.
Definition card_bo : Collision := mkCollision "cand-2" 30.

(** Ana's card, from the outreach column, over the follow-up column. *)
Definition frame_ana : Frame :=
  mkFrame "cand-1" [col_outreach; col_follow_up; card_bo] [] [col_follow_up].

(** The card without a column over Bo's card and the follow-up column. *)
Definition frame_cy : Frame :=
  mkFrame "cand-3" [card_bo; col_follow_up] [] [col_follow_up].

(** The chat of a role, before anything was said, and of a page whose
    role has no id. *)
Definition page0 : RolePage.Page := RolePage.mkPage 0 (Some "role-1") [] None [].
Definition page_no_role : RolePage.Page := RolePage.mkPage 0 None [] None [].

Definition hello : RolePage.Message := RolePage.mkMessage RolePage.user "Who fits best?".
Definition hint : RolePage.Message := RolePage.mkMessage RolePage.assistant "Ana.".

(** Five mutations, 50 ms apart. *)
Definition rapid : list (nat * list RolePage.Message) :=
  [(50, [hello; hint]); (50, [hello; hint; hello]); (50, [hello; hint; hello; hint]);
   (50, [hello; hint; hello; hint; hello])].

Definition typing : EvaluationChat.Chat := EvaluationChat.mkChat "Who fits best?" false.
Definition waiting : EvaluationChat.Chat := EvaluationChat.mkChat "" true.

Definition reply : EvaluationChat.ResponseData :=
  EvaluationChat.mkResponseData (Some "Ana is the best fit.") None.

(** Two candidates of one column and one name, and a board that lists
    them behind a follow-up candidate. *)
Definition ana_first : Candidate :=
  mkCandidate "cand-5" (Some "Ana") None None None None.
Definition board_ties : list Candidate := [bo; ana_first; ana].

End Scenario.

(** ** Text helpers of the runtime, on characters below 128 *)

Module Text.

Definition newline : ascii := ascii_of_nat 10.

(** The one-character string of a line feed. *)
Definition nl : string := String newline "".

(** [s.split(nl)] *)
Fixpoint split_lines (s : string) : list string :=
  match s with
  | "" => [""]
  | String c s' =>
      if bool_decide (c = newline) then "" :: split_lines s'
      else
        match split_lines s' with
        | x :: r => String c x :: r
        | [] => [String c ""]
        end
  end.

(** [l.join(sep)] *)
Definition join (sep : string) (l : list string) : string := String.concat sep l.

(** A text without a line feed. *)
Fixpoint single_line (s : string) : bool :=
  match s with
  | "" => true
  | String c s' => negb (bool_decide (c = newline)) && single_line s'
  end.

(** [hay.includes(needle)] *)
Fixpoint includes (needle hay : string) : bool :=
  String.prefix needle hay
  || match hay with
     | "" => false
     | String _ hay' => includes needle hay'
     end.

(** [\w] of a regular expression without the unicode flag. *)
Definition is_word (c : ascii) : bool :=
  let n := nat_of_ascii c in
  ((48 <=? n) && (n <=? 57)) || ((65 <=? n) && (n <=? 90))
  || ((97 <=? n) && (n <=? 122)) || (n =? 95).

(** [c.toUpperCase()] on a character matched by [\w]. *)
Definition upper (c : ascii) : ascii :=
  let n := nat_of_ascii c in
  if (97 <=? n) && (n <=? 122) then ascii_of_nat (n - 32) else c.

(** [s.replace(/_/g, ' ')] *)
Fixpoint spaces_for_underscores (s : string) : string :=
  match s with
  | "" => ""
  | String c s' =>
      String (if bool_decide (c = "_"%char) then " "%char else c)
        (spaces_for_underscores s')
  end.

(** [s.replace(/\b\w/g, (c) => c.toUpperCase())]: [boundary] tells that
    the character before is not a word character (or that there is none). *)
Fixpoint capitalize (boundary : bool) (s : string) : string :=
  match s with
  | "" => ""
  | String c s' =>
      String (if boundary && is_word c then upper c else c)
        (capitalize (negb (is_word c)) s')
  end.

(** [s.replace('-', ' ')]: the first hyphen only. *)
Fixpoint replace_first_hyphen (s : string) : string :=
  match s with
  | "" => ""
  | String c s' =>
      if bool_decide (c = "-"%char) then String " "%char s'
      else String c (replace_first_hyphen s')
  end.

End Text.

(** ** KanbanBoard.tsx: what the board renders *)

Module Board.

Import Kanban.

(** [columns], id and title. *)
Definition columns : list (string * string) :=
  [("outreach", "Outreach"); ("follow-up", "Outreach Follow-Up");
   ("evaluation", "Evaluation")].

(** [getCandidatesForColumn] *)
Definition getCandidatesForColumn (candidates : list Candidate) (columnId : string)
    : list Candidate :=
  List.filter (fun c => bool_decide (column c = Some columnId)) candidates.

(** The cards of the board, column by column, as the render maps
    [columns] to [Column] components. *)
Definition cards (candidates : list Candidate) : list (string * list Candidate) :=
  map (fun col => (col.1, getCandidatesForColumn candidates col.1)) columns.

(** The candidate is in one of the three columns. *)
Definition on_board (c : Candidate) : bool :=
  match column c with
  | Some k => isColumnId k
  | None => false
  end.

(** [handleDragStart]: the candidate put in the drag overlay. *)
Definition handleDragStart (candidates : list Candidate) (activeId : string)
    : option Candidate :=
  findCandidate candidates activeId.

End Board.

(** ** The role page component: the remaining handlers *)

Module RolePageMore.

Import RolePage.

(** [toggleProfile], on the set of expanded profiles. *)
Definition toggleProfile (i : string) (prev : gset string) : gset string :=
  if bool_decide (i ∈ prev) then prev ∖ {[i]} else prev ∪ {[i]}.

(** The callback of the chat load on the evaluation tab:
    [msgs = res.data?.messages || []], set only when not empty. *)
Definition loadedEvaluationChat (messages : option (list Message)) (p : Page) : Page :=
  let msgs := default [] messages in
  if 0 <? length msgs then setEvaluationMessages msgs p else p.

(** The status badge of a profile and of a card of the selection grid:
    its classes and its text. *)
Definition badgeClass (c : Candidate) : string :=
  if Js.truthyb (sent_to_client c) then "bg-green-100 text-green-800"
  else if Js.truthyb (not_pushing_forward c) then "bg-red-100 text-red-800"
  else if bool_decide (column c = Some "outreach") then "bg-slate-100 text-slate-800"
  else if bool_decide (column c = Some "follow-up") then "bg-amber-100 text-amber-800"
  else "bg-blue-100 text-blue-800".

Definition badgeLabel (c : Candidate) : string :=
  if Js.truthyb (sent_to_client c) then "Sent to client"
  else if Js.truthyb (not_pushing_forward c) then "Not pushing"
  else Text.replace_first_hyphen (Js.or_else (column c) "outreach").

Section JdEditor.

(** [String.prototype.trim] of the runtime. *)
Variable trim : string -> string.

(** The textarea of the responsibilities (and of the requirements):
    its value, and the list its change handler stores. *)
Definition lines_value (items : option (list string)) : string :=
  match items with
  | Some l => Text.join Text.nl l
  | None => ""
  end.

Definition lines_change (value : string) : list string :=
  List.filter (fun l => negb (bool_decide (trim l = ""))) (Text.split_lines value).

End JdEditor.

End RolePageMore.

(** ** EvaluationChat.tsx: the failure branch of [handleSend] *)

Module ChatMore.

Import RolePage EvaluationChat.

(** [err.response?.data?.detail]: a text, a list of validation entries
    (each read through [d?.msg]), something else, or nothing. *)
Inductive Detail :=
| DetailAbsent
| DetailText (s : string)
| DetailList (msgs : list (option string))
| DetailOther.

Record ErrorData := mkErrorData {
  err_response : option string;
  err_detail : Detail;
  err_message : option string;
}.

(** [err.response?.data?.response ?? (typeof detail === 'string' ? detail
    : Array.isArray(detail) ? detail.map(...).filter(Boolean).join('; ')
    : undefined)] *)
Definition backendMessage (err : ErrorData) : option string :=
  match err_response err with
  | Some r => Some r
  | None =>
      match err_detail err with
      | DetailText d => Some d
      | DetailList msgs =>
          Some (Text.join "; "
                  (omap (fun m => if Js.truthy m then m else None) msgs))
      | DetailAbsent | DetailOther => None
      end
  end.

Definition timeout_text : string :=
  "The request took too long. The evaluation may still be processing. Please try again.".

Definition generic_text : string := "Sorry, I encountered an error. Please try again.".

(** [err.message?.includes(needle)] *)
Definition message_includes (err : ErrorData) (needle : string) : bool :=
  match err_message err with
  | Some m => Text.includes needle m
  | None => false
  end.

Definition errorContent (err : ErrorData) : string :=
  match backendMessage err with
  | Some b =>
      if Js.truthy (Some b) then b
      else if message_includes err "timeout" || message_includes err "Timeout"
      then timeout_text else generic_text
  | None =>
      if message_includes err "timeout" || message_includes err "Timeout"
      then timeout_text else generic_text
  end.

Section HandleSendError.

Variable onMessagesChange : list Message -> Page -> Page.
Variable onPersistMessages : option (list Message -> Page -> Page).

(** [handleSend] after the call was rejected. *)
Definition handleSend_error (messagesWithUser : list Message) (err : ErrorData)
    (c : Chat) (p : Page) : Chat * Page :=
  let newMessages := messagesWithUser ++ [mkMessage assistant (errorContent err)] in
  let p' :=
    match onPersistMessages with
    | Some persist => persist newMessages p
    | None => p
    end in
  (mkChat (input c) false, onMessagesChange newMessages p').

End HandleSendError.


(** The clear button is rendered: [onClearChat && messages.length > 0]. *)
Definition clear_shown (onClearChat : bool) (messages : list Message) : bool :=
  onClearChat && (0 <? length messages).

End ChatMore.

(** ** InterviewHelper.tsx: status line and manual entry *)

Module InterviewMore.

Import RolePage.

(** [interview.interview_completed !== false], what the status line and
    its button go by. *)
Definition statusCompleted (i : Interview) : bool :=
  match interview_completed i with
  | JBool false => false
  | _ => true
  end.

Section Manual.

Variable trim : string -> string.

(** The number type of the fit score input. *)
Variable Num : Type.

Record ManualForm := mkManualForm {
  manualSummary : string;
  manualTranscription : string;
  manualFitScore : option Num;
  manualStrengths : string;
  manualConcerns : string;
  manualRecommendation : string;
  manualResponses : gmap string string;
}.

Record Payload := mkPayload {
  p_summary : option string;
  p_transcription : option string;
  p_candidate_responses : option (gmap string string);
  p_fit_score : option Num;
  p_strengths : option (list string);
  p_concerns : option (list string);
  p_recommendation : string;
  p_interview_completed : bool;
}.

(** [t.trim() ? t.trim().split(nl).map(s => s.trim()).filter(Boolean) : []] *)
Definition lines_list (t : string) : list string :=
  if bool_decide (trim t = "") then []
  else List.filter (fun s => negb (bool_decide (s = "")))
         (map trim (Text.split_lines (trim t))).

(** [t.trim() || undefined] *)
Definition text_or_undefined (t : string) : option string :=
  if bool_decide (trim t = "") then None else Some (trim t).

(** [l.length ? l : undefined] *)
Definition list_or_undefined (l : list string) : option (list string) :=
  if 0 <? length l then Some l else None.

(** The payload built by [handleSaveManualInterview]. *)
Definition manualPayload (f : ManualForm) : Payload :=
  let strengthsList := lines_list (manualStrengths f) in
  let concernsList := lines_list (manualConcerns f) in
  mkPayload
    (text_or_undefined (manualSummary f))
    (text_or_undefined (manualTranscription f))
    (if bool_decide (manualResponses f = ∅) then None else Some (manualResponses f))
    (manualFitScore f)
    (list_or_undefined strengthsList)
    (list_or_undefined concernsList)
    (manualRecommendation f)
    true.

End Manual.

End InterviewMore.

(** ** CandidateCard.tsx: the interview upload *)

Module CardMore.

Import CandidateCard.

Inductive Outcome :=
| Uploaded
| Rejected (detail : option string).

Inductive UploadEffect :=
| SetIsUploadingInterview (b : bool)
| AxiosPostInterview (roleId candidateId file : string)
| FetchInterview
| CallChecklistToggle (item : string)
| AlertMsg (msg : string)
| ConsoleErr (msg : string)
| ResetInput.

(** [handleInterviewUpload]; [file] is [e.target.files?.[0]]. *)
Definition handleInterviewUpload (roleId candidateId : string) (file : option string)
    (upload : Outcome) : list UploadEffect :=
  match file with
  | None => []
  | Some f =>
      SetIsUploadingInterview true ::
      AxiosPostInterview roleId candidateId f ::
      match upload with
      | Uploaded =>
          [FetchInterview;
           CallChecklistToggle "screening_interview_completed";
           AlertMsg "Interview uploaded and processed successfully!"]
      | Rejected detail =>
          [ConsoleErr "Error uploading interview:";
           AlertMsg ("Error: " ++ Js.or_else detail "Failed to upload interview")%string]
      end ++
      [SetIsUploadingInterview false; ResetInput]
  end.

(** The local checklist after the handler and the toggle it started have
    run, [put_ok] being the outcome of the PUT of the toggle. *)
Definition checklist_after_upload (roleId candidateId : string)
    (checklist : gmap string bool) (put_ok : bool) (trace : list UploadEffect)
    : gmap string bool :=
  foldl (fun cur e =>
           match e with
           | CallChecklistToggle item =>
               checklist_after cur
                 (handleChecklistToggle roleId candidateId cur put_ok item)
           | _ => cur
           end) checklist trace.

(** The checklist mappings the toggles started by a trace send. *)
Definition persisted_by_upload (roleId candidateId : string)
    (checklist : gmap string bool) (put_ok : bool) (trace : list UploadEffect)
    : list (gmap string bool) :=
  (foldl (fun '(cur, sent) e =>
            match e with
            | CallChecklistToggle item =>
                let t := handleChecklistToggle roleId candidateId cur put_ok item in
                (checklist_after cur t, sent ++ persisted t)
            | _ => (cur, sent)
            end) (checklist, []) trace).2.

(** [checked={checklist[key] || false}] *)
Definition checked (checklist : gmap string bool) (key : string) : bool :=
  default false (checklist !! key).

End CardMore.

(** ** lib/formatExtractedFields.ts *)

Module Fmt.

(** An item of a list: [null] or a text; a value: an item or a list. *)
Inductive Scalar :=
| SNull
| SText (s : string).

Inductive Value :=
| VScalar (x : Scalar)
| VList (l : list Scalar).

Definition LABELS : gmap string string :=
  <["priorities" := "Priorities"]>
  (<["constraints" := "Constraints"]>
  (<["special_requirements" := "Special Requirements"]>
  (<["budget_notes" := "Budget Notes"]>
  (<["timeline_notes" := "Timeline"]>
  (<["team_dynamics" := "Team Dynamics"]>
  (<["culture_fit_notes" := "Culture Fit"]> ∅)))))).

(** [String(v)] *)
Definition String_of (x : Scalar) : string :=
  match x with
  | SNull => "null"
  | SText s => s
  end.

(** The characters in front of an item of a list, as the template has
    them. *)
Definition bullet : string := "â€¢ ".

(** [LABELS[key] || key.replace(/_/g, ' ').replace(/\b\w/g, ...)] *)
Definition label (key : string) : string :=
  Js.or_else (LABELS !! key) (Text.capitalize true (Text.spaces_for_underscores key)).

Definition placeholder : string := "No extracted fields".

Section Format.

Variable trim : string -> string.

(** [v != null && String(v).trim()] *)
Definition keep_item (x : Scalar) : bool :=
  match x with
  | SNull => false
  | SText _ => negb (bool_decide (trim (String_of x) = ""))
  end.

Definition formatValue (value : Value) : string :=
  match value with
  | VScalar SNull => ""
  | VScalar (SText s) => if bool_decide (s = "") then "" else trim s
  | VList l =>
      Text.join Text.nl
        (map (fun v => bullet ++ trim (String_of v))%string (List.filter keep_item l))
  end.

(** [v != null && (Array.isArray(v) ? v.length > 0 : String(v).trim())] *)
Definition keep_entry (e : string * Value) : bool :=
  match e.2 with
  | VScalar SNull => false
  | VScalar (SText s) => negb (bool_decide (trim s = ""))
  | VList l => 0 <? length l
  end.

(** A value with nothing to show: [null], a blank text, or a list
    without an item that is kept. *)
Definition blank_value (value : Value) : bool :=
  match value with
  | VScalar SNull => true
  | VScalar (SText s) => bool_decide (s = "") || bool_decide (trim s = "")
  | VList l => forallb (fun x => negb (keep_item x)) l
  end.

Definition block (e : string * Value) : string :=
  let formatted := formatValue e.2 in
  if bool_decide (formatted = "") then ""
  else (label e.1 ++ Text.nl ++ formatted)%string.

(** [fields] is the list of [Object.entries]; [None] stands for a
    missing object. *)
Definition formatExtractedFields (fields : option (list (string * Value))) : string :=
  match fields with
  | None => placeholder
  | Some l =>
      let entries :=
        List.filter (fun b => negb (bool_decide (b = "")))
          (map block (List.filter keep_entry l)) in
      if 0 <? length entries then Text.join (Text.nl ++ Text.nl)%string entries
      else placeholder
  end.

End Format.

End Fmt.

(** ** More concrete cases *)

Module Cases.

Import RolePage.

(** A [trim] to run the text handlers with: blanks, tabs and line ends
    are removed at both ends. *)
Definition is_space (c : ascii) : bool :=
  let n := nat_of_ascii c in
  ((9 <=? n) && (n <=? 13)) || (n =? 32).

Fixpoint trim_left (s : string) : string :=
  match s with
  | "" => ""
  | String c s' => if is_space c then trim_left s' else s
  end.

Fixpoint trim_right (s : string) : string :=
  match s with
  | "" => ""
  | String c s' =>
      match trim_right s' with
      | "" => if is_space c then "" else String c ""
      | r => String c r
      end
  end.

Definition trimSpaces (s : string) : string := trim_right (trim_left s).

(** A page with a save pending. *)
Definition page_pending : Page :=
  setEvaluationMessages [Scenario.hello; Scenario.hint] Scenario.page0.

Definition err_timeout : ChatMore.ErrorData :=
  ChatMore.mkErrorData None ChatMore.DetailAbsent (Some "timeout of 120000ms exceeded").

Definition err_validation : ChatMore.ErrorData :=
  ChatMore.mkErrorData None
    (ChatMore.DetailList [Some "question is required"; None; Some "too long"])
    (Some "Request failed with status code 422").

(** An interview with neither flag nor text, stored for Ana. *)
Definition bare_interview : Interview := mkInterview JUndefined None None None.
Definition interviews : gmap string Interview := {[ "cand-1" := bare_interview ]}.

Definition duties : list string := ["Build the API"; "Mentor two juniors"].

Definition briefing_fields : list (string * Fmt.Value) :=
  [("priorities", Fmt.VList [Fmt.SText " ship in May "; Fmt.SNull; Fmt.SText "  "]);
   ("budget_notes", Fmt.VScalar Fmt.SNull);
   ("hiring_manager", Fmt.VScalar (Fmt.SText "Dana"));
   ("constraints", Fmt.VList [])].

End Cases.

(** * Properties *)

Module JsFacts.

Lemma truthy_Some s : Js.truthy (Some s) = true <-> s <> "".
Proof.
  unfold Js.truthy. rewrite negb_true_iff, bool_decide_eq_false. tauto.
Qed.

Lemma truthy_spec o : Js.truthy o = true <-> exists s, o = Some s /\ s <> "".
Proof.
  destruct o as [s|]; simpl.
  - rewrite negb_true_iff, bool_decide_eq_false. split.
    + intros H. by exists s.
    + by intros (s' & [= ->] & H).
  - split; [done | by intros (s & H & _)].
Qed.

(** The first match of a search splits the list in two. *)
Lemma find_split {A} (f : A -> bool) (l : list A) (t : A) :
  List.find f l = Some t ->
  exists before after,
    l = before ++ t :: after /\ f t = true /\
    forall b, In b before -> f b = false.
Proof.
  induction l as [|a l IH]; simpl; [done |].
  destruct (f a) eqn:Ha.
  - intros [= ->]. exists [], l. by repeat split.
  - intros H. destruct (IH H) as (before & after & -> & Ht & Hb).
    exists (a :: before), after. repeat split; [done |].
    intros b [<- | Hin]; auto.
Qed.

Lemma find_filter {A} (f g : A -> bool) (l : list A) :
  List.find f (List.filter g l) = List.find (fun x => g x && f x) l.
Proof.
  induction l as [|a l IH]; simpl; [done |].
  destruct (g a); simpl; [destruct (f a) |]; done.
Qed.

Lemma find_is_Some {A} (f : A -> bool) (l : list A) (x : A) :
  In x l -> f x = true -> is_Some (List.find f l).
Proof.
  intros Hin Hx. destruct (List.find f l) eqn:E; [by eexists |].
  pose proof (List.find_none f l E x Hin). congruence.
Qed.

End JsFacts.

Module KanbanFacts.

Import Kanban.

Section Detector.

Context {Args : Type} (active_id : Args -> string).
Context (rectIntersection pointerWithin closestCorners : Args -> list Collision).
Context (getActiveColumn : string -> option string).

Local Abbreviation all := (allCollisions rectIntersection pointerWithin closestCorners).
Local Abbreviation detect :=
  (createKanbanCollisionDetection active_id rectIntersection pointerWithin
     closestCorners getActiveColumn).


(** The two parts of the partition cover the collisions. *)
Lemma partition_collisions (l : list Collision) :
  Permutation l (columnCollisions l ++ otherCollisions l).
Proof.
  induction l as [|c l IH]; simpl; [constructor |].
  unfold columnCollisions, otherCollisions in *. simpl.
  destruct (is_column c); simpl.
  - by constructor.
  - by apply Permutation_cons_app.
Qed.



(** C1 (amended): when the origin column of the dragged candidate is
    known (defined and non-empty) and the collisions contain a
    column-level target whose id differs from it, the resolver splits
    the collisions into column-level and card-level targets and returns
    the first differing column-level target followed by the card-level
    targets. *)
Theorem cross_column_bias (args : Args) (origin : string) (c : Collision) :
  getActiveColumn (active_id args) = Some origin ->
  origin <> "" ->
  In c (all args) -> is_column c = true -> cid c <> origin ->
  Permutation (all args)
    (columnCollisions (all args) ++ otherCollisions (all args)) /\
  exists t before after,
    all args = before ++ t :: after /\
    is_column t = true /\ cid t <> origin /\
    (forall b, In b before -> is_column b = true -> cid b = origin) /\
    detect args = t :: otherCollisions (all args).
Proof.
  intros Hcol Hne Hin Hc Hd.
  split; [apply partition_collisions |].
  assert (Hdiff : differs (Some origin) c = true).
  { unfold differs. apply negb_true_iff, bool_decide_eq_false. congruence. }
  destruct (JsFacts.find_is_Some
              (fun x => is_column x && differs (Some origin) x) (all args) c Hin)
    as [t Ht]; [by rewrite Hc, Hdiff |].
  destruct (JsFacts.find_split _ _ _ Ht) as (before & after & Hsplit & Hp & Hb).
  apply andb_true_iff in Hp as [Hpc Hpd].
  exists t, before, after. repeat split; try done.
  - unfold differs in Hpd. apply negb_true_iff, bool_decide_eq_false in Hpd.
    congruence.
  - intros b Hbin Hbc. specialize (Hb b Hbin). rewrite Hbc in Hb. simpl in Hb.
    unfold differs in Hb. apply negb_false_iff, bool_decide_eq_true in Hb.
    congruence.
  - unfold createKanbanCollisionDetection.
    assert (E : (length (all args) =? 0) = false).
    { destruct (all args); [by destruct Hin | done]. }
    rewrite E, Hcol. rewrite (proj2 (JsFacts.truthy_Some origin) Hne). simpl.
    assert (Hex : existsb is_column (all args) = true).
    { apply existsb_exists. by exists c. }
    rewrite Hex. unfold targetColumnCollision, columnCollisions.
    by rewrite JsFacts.find_filter, Ht.
Qed.

End Detector.

End KanbanFacts.

Module BoardFacts.

Import Kanban.

(** C2: a drag that resolves to the column the candidate is already in
    does nothing beyond clearing the drag overlay: no PUT is issued (so no
    color is computed for one), and the list is not fetched again, so the
    candidate record stays as it is; the outcome of the network plays no
    part. *)
Theorem same_column_noop (roleId : string) (candidates : list Candidate)
    (put_ok : bool) (event : DragEndEvent) (over_id col : string)
    (candidate : Candidate) :
  over event = Some over_id ->
  newColumn candidates over_id = Some col ->
  findCandidate candidates (active event) = Some candidate ->
  column candidate = Some col ->
  handleDragEnd roleId candidates put_ok event = [SetActiveCandidate None] /\
  List.filter is_put (handleDragEnd roleId candidates put_ok event) = [] /\
  List.filter is_refresh (handleDragEnd roleId candidates put_ok event) = [].
Proof.
  intros Hover Hnew Hfind Hcol.
  assert (E : handleDragEnd roleId candidates put_ok event = [SetActiveCandidate None]).
  { unfold handleDragEnd. rewrite Hover, Hnew, Hfind.
    by rewrite (bool_decide_eq_true_2 _ Hcol). }
  by rewrite E.
Qed.

(** A drag to another column does issue the PUT, with the color of the
    target column. *)
Lemma other_column_put (roleId : string) (candidates : list Candidate)
    (put_ok : bool) (event : DragEndEvent) (over_id col : string)
    (candidate : Candidate) :
  over event = Some over_id ->
  newColumn candidates over_id = Some col ->
  findCandidate candidates (active event) = Some candidate ->
  column candidate <> Some col ->
  List.filter is_put (handleDragEnd roleId candidates put_ok event) =
    [AxiosPut roleId (active event) col (newColor candidate col)].
Proof.
  intros Hover Hnew Hfind Hcol. unfold handleDragEnd.
  rewrite Hover, Hnew, Hfind, (bool_decide_eq_false_2 _ Hcol).
  by destruct put_ok.
Qed.

(** C10: the color class of a card depends on [sent_to_client],
    [not_pushing_forward] and [column] only (the stored [color], like the
    id and the name, can be replaced at will); a candidate sent to the
    client is green whatever [not_pushing_forward] says; a column that is
    missing or unknown is styled like outreach. *)
Theorem color_class_drivers (c : Candidate) :
  (forall (i : string) (n k : option string),
     getColorClass
       (mkCandidate i n (column c) k (sent_to_client c) (not_pushing_forward c)) =
     getColorClass c) /\
  (forall (i : string) (n col k : option string) (npf : option bool),
     getColorClass (mkCandidate i n col k (Some true) npf) =
     "bg-green-100 border-green-500") /\
  (forall (i : string) (n col k : option string),
     getColorClass (mkCandidate i n col k (Some false) (Some true)) =
     "bg-red-100 border-red-500") /\
  (column c <> Some "outreach" /\ column c <> Some "follow-up" /\
   column c <> Some "evaluation" ->
   getColorClass c =
   getColorClass
     (mkCandidate (id c) (name c) (Some "outreach") (color c)
        (sent_to_client c) (not_pushing_forward c))).
Proof.
  split; [done |]. split; [done |]. split; [done |].
  intros Hun. unfold getColorClass; simpl.
  destruct (Js.truthyb (sent_to_client c)); [done |].
  destruct (Js.truthyb (not_pushing_forward c)); [done |].
  destruct Hun as (H1 & H2 & H3).
  by repeat case_bool_decide.
Qed.

End BoardFacts.

Module InterviewFacts.

Import RolePage InterviewHelper.

Lemma truthy_or (a b : option string) :
  Js.truthy (Js.or a b) = Js.truthy a || Js.truthy b.
Proof. unfold Js.or. by destruct (Js.truthy a) eqn:E. Qed.

(** C4: the badge predicate holds exactly when an interview was fetched
    for the candidate and it is marked completed with the boolean [true],
    or has a non-empty transcription, or has a non-empty summary; without
    a fetched interview it does not hold. *)
Theorem interview_completion (candidateInterviews : gmap string Interview)
    (cand : Candidate) :
  (hasCompletedInterview candidateInterviews cand = true <->
   exists interview,
     candidateInterviews !! id cand = Some interview /\
     (interview_completed interview = JBool true \/
      (exists s, transcription interview = Some s /\ s <> "") \/
      (exists s, summary interview = Some s /\ s <> ""))) /\
  hasCompletedInterview (delete (id cand) candidateInterviews) cand = false.
Proof.
  split.
  - unfold hasCompletedInterview.
    destruct (candidateInterviews !! id cand) as [inv|]; [| by split; [| intros (? & ? & _)]].
    rewrite truthy_or, !orb_true_iff, !JsFacts.truthy_spec. split.
    + intros H. exists inv. split; [done |].
      destruct H as [H | H]; [left | by right].
      destruct (interview_completed inv) as [| | [|] | |]; done.
    + intros (inv' & [= <-] & [H | H]); [left; by rewrite H | by right].
  - unfold hasCompletedInterview. by rewrite lookup_delete_eq.
Qed.


(** A later update replaces what an earlier one computed. *)
Lemma updateRequiredFields_again (r1 r2 : gmap string string)
    (prev : list RequiredField) :
  updateRequiredFields r2 (updateRequiredFields r1 prev) = updateRequiredFields r2 prev.
Proof. unfold updateRequiredFields. by rewrite map_map. Qed.


End InterviewFacts.

Module ChecklistFacts.

Import CandidateCard.

(** C8: a toggle first replaces the local checklist by one in which the
    item is negated (an item that was not there counts as unchecked) and
    every other key is as before; it persists that whole mapping, once;
    when the PUT fails the local checklist is set back to the mapping the
    toggle started from, and when it succeeds the toggled mapping stays. *)
Theorem checklist_toggle (roleId candidateId : string)
    (checklist : gmap string bool) (put_ok : bool) (item : string) :
  let trace := handleChecklistToggle roleId candidateId checklist put_ok item in
  let newChecklist := toggled checklist item in
  head trace = Some (SetChecklist newChecklist) /\
  newChecklist !! item = Some (negb (default false (checklist !! item))) /\
  (forall b, checklist !! item = Some b -> newChecklist !! item = Some (negb b)) /\
  (forall k, k <> item -> newChecklist !! k = checklist !! k) /\
  persisted trace = [newChecklist] /\
  checklist_after checklist trace = (if put_ok then newChecklist else checklist).
Proof.
  simpl. split; [done |]. unfold toggled.
  split; [by rewrite lookup_insert_eq |].
  split; [intros b Hb; by rewrite lookup_insert_eq, Hb |].
  split; [intros k Hk; by rewrite lookup_insert_ne |].
  by destruct put_ok.
Qed.

End ChecklistFacts.

Module SortFacts.


Section StableSort.

Context {A : Type} (cmp : A -> A -> Z).

Local Abbreviation le := (fun a b => (cmp a b <= 0)%Z).



Hypothesis cmp_total : forall a b, (0 < cmp a b)%Z -> (cmp b a <= 0)%Z.
Hypothesis cmp_trans :
  forall a b c, (cmp a b <= 0)%Z -> (cmp b c <= 0)%Z -> (cmp a c <= 0)%Z.



End StableSort.

Section Stability.

Context {A : Type} (cmp : A -> A -> Z) (P : A -> bool).

(** Two elements of the class never compare as strictly out of order. *)
Hypothesis class_tie : forall a b, P a = true -> P b = true -> (cmp a b <= 0)%Z.



End Stability.

End SortFacts.

Module DisplayFacts.

Import RolePage.



Section Collation.

Variable localeCompare : string -> string -> Z.

(** What a collation is: a string ties with itself, two strings are
    never each strictly before the other, and being at or before is
    transitive. *)
Hypothesis localeCompare_refl : forall s, localeCompare s s = 0%Z.
Hypothesis localeCompare_total :
  forall a b, (0 < localeCompare a b)%Z -> (localeCompare b a <= 0)%Z.
Hypothesis localeCompare_trans :
  forall a b c,
    (localeCompare a b <= 0)%Z -> (localeCompare b c <= 0)%Z ->
    (localeCompare a c <= 0)%Z.

Local Abbreviation cmp := (compareCandidates localeCompare).





End Collation.

End DisplayFacts.

Module PersisterFacts.

Import RolePage.

Lemma setEvaluationMessages_frame (m : list Message) (p : Page) :
  now (setEvaluationMessages m p) = now p /\
  role_id (setEvaluationMessages m p) = role_id p /\
  evaluationMessages (setEvaluationMessages m p) = m /\
  requests (setEvaluationMessages m p) = requests p.
Proof.
  unfold setEvaluationMessages, effect, cleanup. simpl.
  by destruct (negb _ || _).
Qed.

(** A mutation drops whatever timer was pending and arms a fresh one
    when the role has an id and the new list is not empty. *)
Lemma setEvaluationMessages_timer (m : list Message) (p : Page) :
  timer (setEvaluationMessages m p) =
  if Js.truthy (role_id p) && negb (length m =? 0)
  then Some (mkTimer (now p + debounce) (role_id p) m)
  else None.
Proof.
  unfold setEvaluationMessages, effect, cleanup. simpl.
  by destruct (Js.truthy (role_id p)), (length m =? 0).
Qed.

Lemma setEvaluationMessages_fresh (m : list Message) (p : Page) :
  fresh (setEvaluationMessages m p).
Proof.
  unfold fresh. rewrite setEvaluationMessages_timer.
  destruct (_ && _); [| done]. simpl.
  by destruct (setEvaluationMessages_frame m p) as (-> & _).
Qed.

Lemma elapse_frame (d : nat) (p : Page) :
  now (elapse d p) = now p + d /\
  role_id (elapse d p) = role_id p /\
  evaluationMessages (elapse d p) = evaluationMessages p.
Proof.
  unfold elapse. destruct (timer p) as [tm|]; [| done].
  destruct (due tm <=? now p + d); [| done].
  unfold saveEvaluationChat. destruct (timer_role tm); [| done].
  by destruct (Js.truthy _).
Qed.

(** Time that stops short of the delay fires nothing. *)
Lemma elapse_early (d : nat) (p : Page) :
  fresh p -> d < debounce ->
  requests (elapse d p) = requests p /\ timer (elapse d p) = timer p.
Proof.
  unfold fresh, elapse. destruct (timer p) as [tm|] eqn:Ht; [| by intros _ _].
  intros Hf Hd.
  assert (E : (due tm <=? now p + d) = false) by (apply Nat.leb_gt; lia).
  by rewrite E.
Qed.

Lemma elapse_idle (d : nat) (p : Page) :
  timer p = None -> requests (elapse d p) = requests p /\ timer (elapse d p) = None.
Proof. unfold elapse. intros Ht. rewrite Ht. simpl. by rewrite Ht. Qed.

(** A timer that comes due saves what it closed over, once. *)
Lemma elapse_due (d : nat) (p : Page) (tm : Timer) (i : string) :
  timer p = Some tm -> due tm <= now p + d ->
  timer_role tm = Some i -> i <> "" ->
  requests (elapse d p) =
    requests p ++ [(due tm, PutEvaluationChat i (timer_messages tm))] /\
  timer (elapse d p) = None.
Proof.
  intros Ht Hd Hr Hi. unfold elapse. rewrite Ht.
  rewrite (proj2 (Nat.leb_le _ _) Hd). unfold saveEvaluationChat.
  rewrite Hr, (proj2 (JsFacts.truthy_Some i) Hi). done.
Qed.

Lemma last_cons {A} (a d : A) (l : list A) : List.last (a :: l) d = List.last l a.
Proof.
  revert a d. induction l as [|b l IH]; intros a d; [done |].
  change (List.last (a :: b :: l) d) with (List.last (b :: l) d).
  by rewrite (IH b d), (IH b a).
Qed.

(** During a burst in which every mutation follows the previous one
    within the delay, nothing is saved; at its end the only timer is
    the one of the last mutation. *)
Lemma burst_quiet (rest : list (nat * list Message)) (p : Page) (m1 : list Message) :
  fresh p -> evaluationMessages p = m1 ->
  Forall (fun e => e.1 < debounce) rest ->
  let p' := burst rest p in
  requests p' = requests p /\ role_id p' = role_id p /\ fresh p' /\
  evaluationMessages p' = final_messages m1 rest /\
  (rest <> [] ->
   timer p' =
   if Js.truthy (role_id p) && negb (length (final_messages m1 rest) =? 0)
   then Some (mkTimer (now p' + debounce) (role_id p) (final_messages m1 rest))
   else None).
Proof.
  intros Hf Hm Hall. revert p m1 Hf Hm.
  induction Hall as [|[d m] rest Hd Hall IH]; intros p m1 Hf Hm.
  - simpl. by repeat split.
  - cbn [burst]. simpl in Hd.
    set (q := setEvaluationMessages m (elapse d p)).
    destruct (setEvaluationMessages_frame m (elapse d p)) as (Hn & Hr & Hq & Hreq).
    destruct (elapse_frame d p) as (Hn' & Hr' & _).
    destruct (elapse_early d p Hf Hd) as (Hreq' & _).
    specialize (IH q m (setEvaluationMessages_fresh m (elapse d p)) Hq).
    simpl in IH. destruct IH as (IH1 & IH2 & IH3 & IH4 & IH5).
    assert (Hfin : final_messages m1 ((d, m) :: rest) = final_messages m rest).
    { unfold final_messages. simpl. apply last_cons. }
    rewrite Hfin. fold q.
    split; [rewrite IH1; subst q; by rewrite Hreq, Hreq' |].
    split; [rewrite IH2; subst q; by rewrite Hr, Hr' |].
    split; [done |]. split; [done |]. intros _.
    destruct rest as [|e rest'].
    + simpl. unfold final_messages. simpl. subst q.
      rewrite setEvaluationMessages_timer, Hr', Hn. done.
    + rewrite IH5 by done. subst q. by rewrite Hr, Hr'.
Qed.

(** C5 (amended): in a burst of mutations of the message list, each
    following the previous one within the 400 ms delay, every mutation
    cancels the pending timer and arms a new one only when the role has an
    id and the new list is not empty; nothing is saved during the burst, and
    once the delay has passed after the last mutation there has been exactly
    one debounced save, carrying the final list, when that list is not empty
    (and the role has an id), and none otherwise. *)
Theorem debounced_save (p : Page) (d1 : nat) (m1 : list Message)
    (rest : list (nat * list Message)) :
  timer p = None ->
  Forall (fun e => e.1 < debounce) rest ->
  let m := final_messages m1 rest in
  let p' := burst ((d1, m1) :: rest) p in
  let armed := Js.truthy (role_id p) && negb (length m =? 0) in
  (forall (q : Page) (m' : list Message),
     timer (setEvaluationMessages m' q) =
     if Js.truthy (role_id q) && negb (length m' =? 0)
     then Some (mkTimer (now q + debounce) (role_id q) m')
     else None) /\
  requests p' = requests p /\
  evaluationMessages p' = m /\
  timer p' = (if armed then Some (mkTimer (now p' + debounce) (role_id p) m) else None) /\
  forall d, debounce <= d ->
    timer (elapse d p') = None /\
    requests (elapse d p') =
      requests p ++
      match role_id p with
      | Some i => if armed then [(now p' + debounce, PutEvaluationChat i m)] else []
      | None => []
      end.
Proof.
  intros Ht Hall m p' armed.
  split; [intros q m'; apply setEvaluationMessages_timer |].
  set (p1 := setEvaluationMessages m1 (elapse d1 p)).
  destruct (setEvaluationMessages_frame m1 (elapse d1 p)) as (Hn & Hr & Hq & Hreq).
  destruct (elapse_frame d1 p) as (Hn' & Hr' & _).
  destruct (elapse_idle d1 p Ht) as (Hreq' & _).
  destruct (burst_quiet rest p1 m1 (setEvaluationMessages_fresh _ _) Hq Hall)
    as (B1 & B2 & B3 & B4 & B5).
  change (burst rest p1) with p' in *. fold m in B4, B5.
  assert (Hrole : role_id p1 = role_id p) by (subst p1; by rewrite Hr, Hr').
  assert (Hreqs : requests p' = requests p) by (rewrite B1; subst p1; by rewrite Hreq, Hreq').
  assert (Htimer : timer p' =
            if armed then Some (mkTimer (now p' + debounce) (role_id p) m) else None).
  { destruct rest as [|e rest'].
    - subst p' p1 m armed. unfold final_messages. simpl.
      by rewrite setEvaluationMessages_timer, Hr', Hn.
    - rewrite B5 by done. by rewrite Hrole. }
  split; [done |]. split; [done |]. split; [done |].
  intros d Hd. destruct armed eqn:Ha.
  - apply andb_true_iff in Ha as [Hid _].
    apply JsFacts.truthy_spec in Hid as (i & Hi & Hne).
    rewrite Hi in *.
    destruct (elapse_due d p' _ i Htimer) as (E1 & E2); simpl; [lia | done | done |].
    split; [done |]. by rewrite E1, Hreqs.
  - destruct (elapse_idle d p' Htimer) as (E1 & E2).
    split; [done |]. rewrite E1, Hreqs. destruct (role_id p); by rewrite app_nil_r.
Qed.

(** C6 (amended): when the chat of a role that has an id receives a
    successful reply, the PUT that carries the whole sequence, the question
    and the new reply included, is issued at the moment of the reply,
    whatever timer is pending and before any time passes. *)
Theorem reply_saved_at_once (trim : string -> string) (roleId : option string)
    (messages : list Message) (c : EvaluationChat.Chat) (p : Page)
    (i : string) (d : nat) (data : EvaluationChat.ResponseData) :
  role_id p = Some i -> i <> "" ->
  trim (EvaluationChat.input c) <> "" -> EvaluationChat.isLoading c = false ->
  exists messagesWithUser c1 p1,
    EvaluationChat.handleSend_request trim roleId setEvaluationMessages messages c p =
      Some (messagesWithUser, c1, p1) /\
    messagesWithUser = messages ++ [mkMessage user (trim (EvaluationChat.input c))] /\
    let p2 := elapse d p1 in
    let newMessages :=
      messagesWithUser ++ [mkMessage assistant (EvaluationChat.reply_content data)] in
    let p3 :=
      (EvaluationChat.handleSend_reply setEvaluationMessages
         (Some persistEvaluationChatNow) messagesWithUser data c1 p2).2 in
    requests p3 = requests p2 ++ [(now p2, PutEvaluationChat i newMessages)] /\
    now p3 = now p2 /\
    evaluationMessages p3 = newMessages.
Proof.
  intros Hrole Hi Hin Hload.
  unfold EvaluationChat.handleSend_request.
  rewrite (bool_decide_eq_false_2 _ Hin), Hload. simpl.
  set (mwu := messages ++ [mkMessage user (trim (EvaluationChat.input c))]).
  set (p1 := setEvaluationMessages mwu
               (issue (PostEvaluate roleId (trim (EvaluationChat.input c)) messages) p)).
  exists mwu, (EvaluationChat.mkChat "" true), p1.
  split; [reflexivity |]. split; [reflexivity |].
  assert (Hr2 : role_id (elapse d p1) = Some i).
  { destruct (elapse_frame d p1) as (_ & -> & _). subst p1.
    by destruct (setEvaluationMessages_frame mwu
                   (issue (PostEvaluate roleId (trim (EvaluationChat.input c)) messages) p))
      as (_ & -> & _). }
  unfold EvaluationChat.handleSend_reply. cbn [snd].
  set (new := mwu ++ [mkMessage assistant (EvaluationChat.reply_content data)]).
  destruct (setEvaluationMessages_frame new (persistEvaluationChatNow new (elapse d p1)))
    as (-> & _ & -> & ->).
  unfold persistEvaluationChatNow. rewrite Hr2.
  by rewrite (proj2 (JsFacts.truthy_Some i) Hi).
Qed.

End PersisterFacts.

Module KanbanExamples.

Import Kanban Scenario.

(** Ana's card over the follow-up column: the column comes first, the
    card of Bo after it, the collision of the origin column is gone. *)
Lemma cross_column_bias_witness :
  Permutation (tier frame_ana)
    (columnCollisions (tier frame_ana) ++ otherCollisions (tier frame_ana)) /\
  exists t before after,
    tier frame_ana = before ++ t :: after /\
    is_column t = true /\ cid t <> "outreach" /\
    (forall b, In b before -> is_column b = true -> cid b = "outreach") /\
    detect board frame_ana = t :: otherCollisions (tier frame_ana).
Proof.
  apply (KanbanFacts.cross_column_bias frame_active frame_rect frame_pointer
           frame_corners (getActiveColumn board) frame_ana "outreach" col_follow_up).
  - reflexivity.
  - discriminate.
  - simpl. auto.
  - reflexivity.
  - discriminate.
Defined.

(** C1, as stated, fails for a dragged card whose record has no column:
    the collisions contain the follow-up column, which differs from the
    origin, and yet the resolver returns them as they are, a card first. *)
Lemma cross_column_bias_without_origin :
  tier frame_cy <> [] /\
  (exists c, In c (tier frame_cy) /\ is_column c = true /\
             Some (cid c) <> getActiveColumn board (frame_active frame_cy)) /\
  detect board frame_cy = [card_bo; col_follow_up] /\
  (forall t, head (detect board frame_cy) = Some t -> is_column t = false).
Proof.
  split; [discriminate |]. split.
  - exists col_follow_up. split; [simpl; auto |]. split; [reflexivity | discriminate].
  - split; [reflexivity |]. intros t [= <-]. reflexivity.
Qed.


(** Ana's card dropped on Dee's card, in her own column. *)
Lemma same_column_noop_witness :
  handleDragEnd "role-1" board true (mkDragEnd "cand-1" (Some "cand-4")) =
    [SetActiveCandidate None] /\
  List.filter is_put
    (handleDragEnd "role-1" board true (mkDragEnd "cand-1" (Some "cand-4"))) = [] /\
  List.filter is_refresh
    (handleDragEnd "role-1" board true (mkDragEnd "cand-1" (Some "cand-4"))) = [].
Proof.
  apply (BoardFacts.same_column_noop "role-1" board true
           (mkDragEnd "cand-1" (Some "cand-4")) "cand-4" "outreach" ana);
    reflexivity.
Defined.

End KanbanExamples.

Module ChatExamples.

Import RolePage Scenario.

(** Five mutations in 200 ms: one save, 400 ms after the last one. *)
Lemma debounced_save_witness :
  let p' := burst ((0, [hello]) :: rapid) page0 in
  requests p' = [] /\
  timer p' = Some (mkTimer 600 (Some "role-1") [hello; hint; hello; hint; hello]) /\
  requests (elapse 400 p') =
    [(600, PutEvaluationChat "role-1" [hello; hint; hello; hint; hello])].
Proof.
  assert (Hrapid : Forall (fun e : nat * list Message => e.1 < debounce) rapid).
  { unfold rapid, debounce. repeat constructor; simpl; lia. }
  destruct (PersisterFacts.debounced_save page0 0 [hello] rapid eq_refl Hrapid)
    as (_ & H1 & _ & H2 & H3).
  destruct (H3 400 (le_n 400)) as (_ & H4).
  split; [exact H1 |]. split; [exact H2 | exact H4].
Defined.

(** C5, as stated, fails for a burst that ends on the empty list (the
    chat is cleared 100 ms after a message): the last mutation cancels the
    timer and arms none, and no debounced save ever happens. *)
Lemma burst_ending_empty_saves_nothing :
  timer (burst [(0, [hello]); (100, [])] page0) = None /\
  puts (requests (elapse 1000 (burst [(0, [hello]); (100, [])] page0))) = [] /\
  puts (requests
          (elapse 1000
             (handleClearEvaluationChat true
                (elapse 100 (setEvaluationMessages [hello] page0))))) = [].
Proof. repeat split; reflexivity. Qed.

(** A question, a reply 250 ms later, and the PUT at that very time. *)
Lemma reply_saved_at_once_witness :
  exists messagesWithUser c1 p1,
    EvaluationChat.handleSend_request (fun s => s) (Some "role-1")
      setEvaluationMessages [] typing page0 = Some (messagesWithUser, c1, p1) /\
    messagesWithUser = [hello] /\
    let p2 := elapse 250 p1 in
    let newMessages :=
      messagesWithUser ++ [mkMessage assistant "Ana is the best fit."] in
    let p3 :=
      (EvaluationChat.handleSend_reply setEvaluationMessages
         (Some persistEvaluationChatNow) messagesWithUser reply c1 p2).2 in
    requests p3 = requests p2 ++ [(now p2, PutEvaluationChat "role-1" newMessages)] /\
    now p3 = now p2 /\
    evaluationMessages p3 = newMessages.
Proof.
  apply (PersisterFacts.reply_saved_at_once (fun s => s) (Some "role-1") [] typing
           page0 "role-1" 250 reply).
  - reflexivity.
  - discriminate.
  - discriminate.
  - reflexivity.
Defined.

(** C6, as stated, fails on a page whose role has no id: the reply is
    received and shown, and no PUT is issued, neither at once nor later. *)
Lemma reply_without_role_not_saved :
  let p3 :=
    (EvaluationChat.handleSend_reply setEvaluationMessages
       (Some persistEvaluationChatNow) [hello] reply waiting page_no_role).2 in
  evaluationMessages p3 = [hello; mkMessage assistant "Ana is the best fit."] /\
  requests p3 = [] /\
  requests (elapse 1000 p3) = [].
Proof. repeat split; reflexivity. Qed.

End ChatExamples.

Module DisplayExamples.

Import RolePage Scenario.







(** Two candidates with one key keep the order they came in. *)
Example display_order_ties :
  sortedCandidates codeCompare board_ties = [ana_first; ana; bo] /\
  sortedCandidates codeCompare [bo; ana; ana_first] = [ana; ana_first; bo].
Proof. split; reflexivity. Qed.

End DisplayExamples.

(** * Further properties of the components *)

Module BoardMore.

Import Kanban Board.

Lemma filter_disjoint_app {A} (f g : A -> bool) (l : list A) :
  (forall x, f x = true -> g x = false) ->
  Permutation (List.filter f l ++ List.filter g l)
    (List.filter (fun x => f x || g x) l).
Proof.
  intros Hd. induction l as [|a l IH]; simpl; [done |].
  destruct (f a) eqn:Hf; simpl.
  - rewrite (Hd a Hf). by constructor.
  - destruct (g a); [| done].
    rewrite <- Permutation_middle. by constructor.
Qed.

Lemma isColumnId_spec (k : string) :
  isColumnId k = true <-> k = "outreach" \/ k = "follow-up" \/ k = "evaluation".
Proof.
  unfold isColumnId, COLUMN_IDS.
  rewrite bool_decide_eq_true, !elem_of_cons, elem_of_nil. tauto.
Qed.

Lemma filter_same {A} (f g : A -> bool) (l : list A) :
  (forall x, f x = g x) -> List.filter f l = List.filter g l.
Proof. intros H. apply List.filter_ext. exact H. Qed.

(** X1: over the three columns together the board shows exactly the
    candidates whose column is one of the three ids, each in the column its
    record names; a candidate whose column is missing or unknown is in no
    column of the board. *)
Theorem board_shows_known_columns (candidates : list Candidate) :
  Permutation (concat (map snd (cards candidates)))
    (List.filter on_board candidates) /\
  (forall col cs c,
     In (col, cs) (cards candidates) -> In c cs -> column c = Some col) /\
  (forall c,
     In c candidates -> on_board c = false ->
     forall col cs, In (col, cs) (cards candidates) -> ~ In c cs).
Proof.
  split; [| split].
  - unfold cards, columns, getCandidatesForColumn. simpl. rewrite app_nil_r.
    set (f k := fun c : Candidate => bool_decide (column c = Some k)).
    change (Permutation
              (List.filter (f "outreach") candidates ++
               List.filter (f "follow-up") candidates ++
               List.filter (f "evaluation") candidates)
              (List.filter on_board candidates)).
    rewrite (filter_disjoint_app (f "follow-up") (f "evaluation")).
    2:{ intros x. unfold f. rewrite bool_decide_eq_true, bool_decide_eq_false.
        intros ->. discriminate. }
    rewrite (filter_disjoint_app (f "outreach")).
    2:{ intros x. unfold f. rewrite bool_decide_eq_true, orb_false_iff,
          !bool_decide_eq_false. intros ->. split; discriminate. }
    rewrite (filter_same _ on_board); [done |].
    intros x. unfold f, on_board. destruct (column x) as [k|]; [| done].
    destruct (isColumnId k) eqn:Hk.
    + apply isColumnId_spec in Hk as [-> | [-> | ->]]; done.
    + rewrite !orb_false_iff, !bool_decide_eq_false.
      repeat split; intros [= ->]; discriminate.
  - intros col cs c Hin Hc. unfold cards in Hin.
    apply in_map_iff in Hin as ([k t] & [= <- <-] & _). simpl in Hc.
    apply List.filter_In in Hc as [_ Hc]. by apply bool_decide_eq_true in Hc.
  - intros c _ Hb col cs Hin Hc. unfold cards in Hin.
    apply in_map_iff in Hin as ([k t] & [= <- <-] & Hk). simpl in Hc.
    apply List.filter_In in Hc as [_ Hc]. apply bool_decide_eq_true in Hc.
    unfold on_board in Hb. rewrite Hc in Hb.
    unfold columns in Hk. simpl in Hk.
    destruct Hk as [[= <- _] | [[= <- _] | [[= <- _] | []]]]; discriminate.
Qed.

Lemma findCandidate_unique (candidates : list Candidate) (c : Candidate) :
  NoDup (map id candidates) -> In c candidates ->
  findCandidate candidates (id c) = Some c.
Proof.
  unfold findCandidate. induction candidates as [|a l IH]; [done |].
  simpl. intros Hnd Hin. apply NoDup_cons in Hnd as [Ha Hnd].
  case_bool_decide as E.
  - destruct Hin as [-> | Hin]; [done |].
    exfalso. apply Ha. rewrite E. apply list_elem_of_In, in_map, Hin.
  - destruct Hin as [-> | Hin]; [done |]. by apply IH.
Qed.

(** X2: when the ids of the candidates are distinct, every card of the
    board is found again by its id: the drag overlay gets that candidate,
    and the origin column the collision detector sees is the column the
    card is rendered in, one of the three ids, so never missing or empty. *)
Theorem card_origin_known (candidates : list Candidate) (col : string)
    (cs : list Candidate) (c : Candidate) :
  NoDup (map id candidates) ->
  In (col, cs) (cards candidates) -> In c cs ->
  handleDragStart candidates (id c) = Some c /\
  getActiveColumn candidates (id c) = Some col /\
  isColumnId col = true /\
  Js.truthy (getActiveColumn candidates (id c)) = true.
Proof.
  intros Hnd Hin Hc. unfold cards in Hin.
  apply in_map_iff in Hin as ([k t] & [= <- <-] & Hk). simpl in Hc.
  apply List.filter_In in Hc as [Hc Hcol]. apply bool_decide_eq_true in Hcol.
  pose proof (findCandidate_unique candidates c Hnd Hc) as Hf.
  assert (Hid : isColumnId k = true /\ k <> "").
  { unfold columns in Hk. simpl in Hk.
    destruct Hk as [[= <- _] | [[= <- _] | [[= <- _] | []]]]; by split. }
  unfold handleDragStart, getActiveColumn. rewrite Hf, Hcol. simpl.
  destruct Hid as [Hid Hne]. repeat split; try done.
  by rewrite (bool_decide_eq_false_2 _ Hne).
Qed.

(** X3: a drag issues at most one PUT, and only for a candidate of the
    list dropped on a column other than its own; the list is fetched again
    only after that PUT succeeded, and a failed PUT is answered by the
    alert without a fetch; every other drag only clears the overlay or logs
    the missing candidate. *)
Theorem drag_end_trace (roleId : string) (candidates : list Candidate)
    (put_ok : bool) (event : DragEndEvent) :
  let trace := handleDragEnd roleId candidates put_ok event in
  (trace = [SetActiveCandidate None] \/
   trace = [SetActiveCandidate None; ConsoleError "Candidate not found:"]) \/
  exists over_id col c,
    over event = Some over_id /\
    newColumn candidates over_id = Some col /\
    findCandidate candidates (active event) = Some c /\
    column c <> Some col /\
    trace =
      [SetActiveCandidate None;
       AxiosPut roleId (active event) col (newColor c col)] ++
      (if put_ok then [OnUpdate]
       else [ConsoleError "Error updating candidate status:";
             Alert "Failed to move candidate. Please try again."]).
Proof.
  unfold handleDragEnd. simpl.
  destruct (over event) as [over_id|]; [| by left; left].
  destruct (newColumn candidates over_id) as [col|] eqn:Hnew; [| by left; left].
  destruct (findCandidate candidates (active event)) as [c|]; [| by left; right].
  case_bool_decide as E; [by left; left |].
  right. by exists over_id, col, c.
Qed.

(** X4: the column a drop resolves to is the id dropped on when that is
    a column id, and otherwise the non-empty column of the card dropped on;
    for a target among the three columns the color sent with it depends on
    the target alone: amber-transparent for outreach, amber-solid for the
    other two, whatever color the record had. *)
Theorem drop_target_and_color (candidates : list Candidate) (over_id col : string) :
  newColumn candidates over_id = Some col ->
  (((over_id ∈ validColumns) /\ col = over_id) \/
   ((over_id ∉ validColumns) /\ col <> "" /\
    exists t, findCandidate candidates over_id = Some t /\ column t = Some col)) /\
  ((col ∈ validColumns) ->
   forall c,
     newColor c col =
     Some (if bool_decide (col = "outreach") then "amber-transparent"
           else "amber-solid")).
Proof.
  intros Hnew. split.
  - unfold newColumn in Hnew. case_bool_decide as Hv.
    + left. by injection Hnew as <-.
    + right. split; [done |].
      destruct (findCandidate candidates over_id) as [t|]; [| done].
      destruct (Js.truthy (column t)) eqn:Ht; [| done].
      apply JsFacts.truthy_spec in Ht as (k & Hk & Hne).
      rewrite Hk in Hnew. injection Hnew as <-. split; [done |]. by exists t.
  - intros Hv c. unfold validColumns in Hv.
    rewrite !elem_of_cons, elem_of_nil in Hv.
    destruct Hv as [-> | [-> | [-> | []]]]; reflexivity.
Qed.

End BoardMore.

Module PersisterMore.

Import RolePage RolePageMore EvaluationChat ChatMore.

(** What the end of a round of [handleSend] does to the page, for either
    outcome: the handler persists, then the new list is rendered. *)
Lemma finish_frame (new : list Message) (p : Page) (i : string) :
  role_id p = Some i -> i <> "" ->
  let p' := setEvaluationMessages new (persistEvaluationChatNow new p) in
  requests p' = requests p ++ [(now p, PutEvaluationChat i new)] /\
  now p' = now p /\ role_id p' = Some i /\
  evaluationMessages p' = new /\
  timer p' =
    (if 0 <? length new then Some (mkTimer (now p + debounce) (Some i) new)
     else None).
Proof.
  intros Hr Hi p'. subst p'.
  assert (E : persistEvaluationChatNow new p = issue (PutEvaluationChat i new) p).
  { unfold persistEvaluationChatNow.
    by rewrite Hr, (proj2 (JsFacts.truthy_Some i) Hi). }
  rewrite E.
  destruct (PersisterFacts.setEvaluationMessages_frame new
              (issue (PutEvaluationChat i new) p)) as (-> & -> & -> & ->).
  rewrite PersisterFacts.setEvaluationMessages_timer. simpl.
  rewrite Hr, (proj2 (JsFacts.truthy_Some i) Hi).
  repeat split. by destruct new.
Qed.

(** X5: the save at the reply does not cancel the debounce: for a role
    with an id, once 400 ms have passed after a reply the transcript with
    the question and the reply has been PUT twice, at the reply and 400 ms
    later; and that transcript is the one of the time of the question,
    whatever the page held when the reply came. *)
Theorem reply_saved_twice (messagesWithUser : list Message) (data : ResponseData)
    (c : Chat) (p : Page) (i : string) (d : nat) :
  role_id p = Some i -> i <> "" -> debounce <= d ->
  let new := messagesWithUser ++ [mkMessage assistant (reply_content data)] in
  let p3 :=
    (handleSend_reply setEvaluationMessages (Some persistEvaluationChatNow)
       messagesWithUser data c p).2 in
  evaluationMessages p3 = new /\
  requests (elapse d p3) =
    requests p ++
    [(now p, PutEvaluationChat i new); (now p + debounce, PutEvaluationChat i new)].
Proof.
  intros Hr Hi Hd new p3.
  destruct (finish_frame new p i Hr Hi) as (Hreq & Hnow & _ & Hmsg & Htm).
  change (setEvaluationMessages new (persistEvaluationChatNow new p)) with p3 in *.
  split; [done |].
  assert (Hlen : (0 <? length new) = true).
  { subst new. rewrite length_app. simpl. apply Nat.ltb_lt. lia. }
  rewrite Hlen in Htm.
  destruct (PersisterFacts.elapse_due d p3 _ i Htm) as (E & _); simpl;
    [lia | done | done |].
  rewrite E, Hreq, <- app_assoc. done.
Qed.

Lemma clear_frame (p : Page) (i : string) :
  role_id p = Some i -> i <> "" ->
  let p' := handleClearEvaluationChat true p in
  evaluationMessages p' = [] /\
  timer p' = None /\
  requests p' = requests p ++ [(now p, DeleteEvaluationChat i)] /\
  now p' = now p /\ role_id p' = Some i.
Proof.
  intros Hr Hi p'. subst p'. unfold handleClearEvaluationChat.
  destruct (PersisterFacts.setEvaluationMessages_frame [] p) as (Hn & Hr' & Hm & Hq).
  pose proof (PersisterFacts.setEvaluationMessages_timer [] p) as Ht.
  rewrite andb_false_r in Ht.
  rewrite Hr', Hr, (proj2 (JsFacts.truthy_Some i) Hi).
  simpl. by rewrite Hm, Ht, Hq, Hn, Hr', Hr.
Qed.

(** X6: a confirmed clear empties the transcript, cancels the pending
    save and issues one DELETE for a role with an id; however long one
    waits afterwards nothing else is sent, so the old transcript is not
    written back; a declined clear changes nothing. *)
Theorem clear_cancels_save (p : Page) (i : string) (d : nat) :
  role_id p = Some i -> i <> "" ->
  let p' := handleClearEvaluationChat true p in
  evaluationMessages p' = [] /\
  timer p' = None /\
  requests p' = requests p ++ [(now p, DeleteEvaluationChat i)] /\
  requests (elapse d p') = requests p' /\
  handleClearEvaluationChat false p = p.
Proof.
  intros Hr Hi p'.
  destruct (clear_frame p i Hr Hi) as (H1 & H2 & H3 & _).
  fold p' in H1, H2, H3.
  destruct (PersisterFacts.elapse_idle d p' H2) as (H4 & _).
  done.
Qed.

(** X7: a stored transcript that is not empty replaces the local one when
    it is loaded and, the list having changed, is written back unchanged
    400 ms later; an empty or missing one leaves the page as it is. *)
Theorem load_writes_back (msgs : list Message) (p : Page) (i : string) (d : nat) :
  role_id p = Some i -> i <> "" -> msgs <> [] -> debounce <= d ->
  let p' := loadedEvaluationChat (Some msgs) p in
  evaluationMessages p' = msgs /\
  requests p' = requests p /\
  requests (elapse d p') =
    requests p ++ [(now p + debounce, PutEvaluationChat i msgs)] /\
  loadedEvaluationChat (Some []) p = p /\
  loadedEvaluationChat None p = p.
Proof.
  intros Hr Hi Hm Hd p'. subst p'. unfold loadedEvaluationChat. simpl.
  assert (Hlen : (0 <? length msgs) = true) by (by destruct msgs).
  rewrite Hlen.
  destruct (PersisterFacts.setEvaluationMessages_frame msgs p) as (Hn & Hr' & Hmsg & Hq).
  pose proof (PersisterFacts.setEvaluationMessages_timer msgs p) as Ht.
  rewrite Hr, (proj2 (JsFacts.truthy_Some i) Hi) in Ht.
  assert (Hz : (length msgs =? 0) = false) by (by destruct msgs).
  rewrite Hz in Ht. simpl in Ht.
  split; [done |]. split; [done |]. split; [| done].
  destruct (PersisterFacts.elapse_due d _ _ i Ht) as (E & _); simpl;
    [lia | done | done |].
  by rewrite E, Hq.
Qed.

Lemma request_frame (trim : string -> string) (roleId : option string)
    (messages : list Message) (c : Chat) (p : Page) :
  trim (input c) <> "" -> isLoading c = false ->
  let mwu := messages ++ [mkMessage user (trim (input c))] in
  let p1 :=
    setEvaluationMessages mwu (issue (PostEvaluate roleId (trim (input c)) messages) p) in
  handleSend_request trim roleId setEvaluationMessages messages c p =
    Some (mwu, mkChat "" true, p1) /\
  role_id p1 = role_id p /\ evaluationMessages p1 = mwu.
Proof.
  intros Hin Hload mwu p1. unfold handleSend_request.
  rewrite (bool_decide_eq_false_2 _ Hin), Hload. simpl.
  split; [reflexivity |]. subst p1.
  by destruct (PersisterFacts.setEvaluationMessages_frame mwu
                 (issue (PostEvaluate roleId (trim (input c)) messages) p))
    as (_ & -> & -> & _).
Qed.

(** X8: the reply handler does not look at the transcript of the page:
    when the chat is cleared while the evaluation is running (the clear
    button is shown then), the reply brings the cleared transcript back,
    with the question and the reply, and PUTs it after the DELETE. *)
Theorem reply_undoes_clear (trim : string -> string) (roleId : option string)
    (messages : list Message) (c : Chat) (p : Page) (i : string) (d1 d2 : nat)
    (data : ResponseData) :
  role_id p = Some i -> i <> "" ->
  trim (input c) <> "" -> isLoading c = false ->
  exists messagesWithUser c1 p1,
    handleSend_request trim roleId setEvaluationMessages messages c p =
      Some (messagesWithUser, c1, p1) /\
    let waiting := elapse d1 p1 in
    let cleared := handleClearEvaluationChat true waiting in
    let new :=
      messages ++ [mkMessage user (trim (input c));
                   mkMessage assistant (reply_content data)] in
    let p3 :=
      (handleSend_reply setEvaluationMessages (Some persistEvaluationChatNow)
         messagesWithUser data c1 (elapse d2 cleared)).2 in
    clear_shown true (evaluationMessages waiting) = true /\
    evaluationMessages cleared = [] /\
    evaluationMessages p3 = new /\
    requests p3 =
      requests waiting ++
      [(now waiting, DeleteEvaluationChat i);
       (now waiting + d2, PutEvaluationChat i new)].
Proof.
  intros Hr Hi Hin Hload.
  destruct (request_frame trim roleId messages c p Hin Hload) as (Hreq & Hr1 & Hm1).
  eexists _, _, _. split; [exact Hreq |].
  set (mwu := messages ++ [mkMessage user (trim (input c))]) in *.
  set (p1 := setEvaluationMessages mwu _) in *.
  intros waiting cleared new p3.
  destruct (PersisterFacts.elapse_frame d1 p1) as (Hnw & Hrw & Hmw).
  fold waiting in Hnw, Hrw, Hmw.
  assert (Hrole : role_id waiting = Some i) by (by rewrite Hrw, Hr1).
  destruct (clear_frame waiting i Hrole Hi) as (Hc1 & Hc2 & Hc3 & Hnc & Hrc).
  fold cleared in Hc1, Hc2, Hc3, Hnc, Hrc.
  destruct (PersisterFacts.elapse_idle d2 cleared Hc2) as (Hc4 & _).
  destruct (PersisterFacts.elapse_frame d2 cleared) as (Hn2 & Hr2 & _).
  assert (Hr3 : role_id (elapse d2 cleared) = Some i) by (by rewrite Hr2).
  destruct (finish_frame (mwu ++ [mkMessage assistant (reply_content data)])
              (elapse d2 cleared) i Hr3 Hi) as (F1 & _ & _ & F2 & _).
  assert (Hnew : mwu ++ [mkMessage assistant (reply_content data)] = new).
  { subst mwu new. by rewrite <- app_assoc. }
  change (evaluationMessages p3 =
          mwu ++ [mkMessage assistant (reply_content data)]) in F2.
  change (requests p3 =
          requests (elapse d2 cleared) ++
          [(now (elapse d2 cleared),
            PutEvaluationChat i (mwu ++ [mkMessage assistant (reply_content data)]))])
    in F1.
  split; [| split; [done | split; [by rewrite F2 |]]].
  - unfold clear_shown. rewrite Hmw, Hm1. subst mwu. rewrite length_app. simpl.
    apply Nat.ltb_lt. lia.
  - by rewrite F1, Hnew, Hc4, Hc3, Hn2, Hnc, <- app_assoc.
Qed.

(** X9: the entry a failed evaluation adds is never empty: it is the
    message of the backend when that is not empty, else the timeout text
    when the error message mentions a timeout, else the generic text; and,
    for a role with an id, the transcript with that entry is PUT at once,
    as after a reply. *)
Theorem error_entry_never_empty (messagesWithUser : list Message) (err : ErrorData)
    (c : Chat) (p : Page) (i : string) :
  role_id p = Some i -> i <> "" ->
  let new := messagesWithUser ++ [mkMessage assistant (errorContent err)] in
  let p3 :=
    (handleSend_error setEvaluationMessages (Some persistEvaluationChatNow)
       messagesWithUser err c p).2 in
  errorContent err <> "" /\
  (forall b, backendMessage err = Some b -> b <> "" -> errorContent err = b) /\
  (Js.truthy (backendMessage err) = false ->
   errorContent err = timeout_text \/ errorContent err = generic_text) /\
  evaluationMessages p3 = new /\
  requests p3 = requests p ++ [(now p, PutEvaluationChat i new)].
Proof.
  intros Hr Hi new p3.
  destruct (finish_frame new p i Hr Hi) as (F1 & _ & _ & F2 & _).
  assert (Hfall :
    (if message_includes err "timeout" || message_includes err "Timeout"
     then timeout_text else generic_text) <> "").
  { by destruct (_ || _). }
  split; [| split; [| split; [| done]]].
  - unfold errorContent. destruct (backendMessage err) as [b|]; [| done].
    destruct (Js.truthy (Some b)) eqn:Hb; [| done].
    by apply JsFacts.truthy_Some in Hb.
  - intros b Hb Hne. unfold errorContent. rewrite Hb.
    by rewrite (proj2 (JsFacts.truthy_Some b) Hne).
  - intros Hb. unfold errorContent.
    destruct (backendMessage err) as [b|]; [rewrite Hb |];
      destruct (_ || _); auto.
Qed.




End PersisterMore.

Module TextFacts.

Import Text.

Lemma split_lines_nonempty (s : string) : split_lines s <> [].
Proof.
  destruct s as [|c s]; simpl; [done |].
  case_bool_decide; [done |]. by destruct (split_lines s).
Qed.

Lemma split_single (s : string) : single_line s = true -> split_lines s = [s].
Proof.
  induction s as [|c s IH]; simpl; [done |].
  intros H. apply andb_true_iff in H as [Hc Hs].
  apply negb_true_iff in Hc. rewrite Hc, (IH Hs). done.
Qed.

Lemma split_lines_app (s t : string) :
  single_line s = true ->
  split_lines (s ++ nl ++ t) = s :: split_lines t.
Proof.
  induction s as [|c s IH]; simpl.
  - by intros _.
  - intros H. apply andb_true_iff in H as [Hc Hs].
    apply negb_true_iff in Hc. rewrite Hc, (IH Hs). done.
Qed.

(** Splitting what was joined gives the lines back. *)
Lemma split_join (l : list string) :
  l <> [] -> Forall (fun x => single_line x = true) l ->
  split_lines (join nl l) = l.
Proof.
  intros Hne Hall. induction Hall as [|x l Hx Hall IH]; [done |].
  destruct l as [|y l'].
  - simpl. by apply split_single.
  - change (join nl (x :: y :: l')) with (x ++ nl ++ join nl (y :: l'))%string.
    rewrite split_lines_app by done. by rewrite IH.
Qed.

Lemma split_lines_single (s : string) :
  Forall (fun x => single_line x = true) (split_lines s).
Proof.
  induction s as [|c s IH]; simpl; [by repeat constructor |].
  case_bool_decide as E; [by constructor |].
  destruct (split_lines s) as [|x r]; [by repeat constructor; simpl; rewrite bool_decide_eq_false_2 |].
  apply Forall_cons in IH as [Hx Hr]. constructor; [| done].
  simpl. by rewrite (bool_decide_eq_false_2 _ E), Hx.
Qed.

(** A line feed at the end opens one more, empty, line. *)
Lemma split_lines_feed (s : string) :
  split_lines (s ++ nl) = split_lines s ++ [""].
Proof.
  induction s as [|c s IH]; simpl; [done |].
  rewrite IH. case_bool_decide; [done |].
  pose proof (split_lines_nonempty s). by destruct (split_lines s).
Qed.

Lemma join_nonempty (sep : string) (l : list string) :
  l <> [] -> Forall (fun x => x <> "") l -> join sep l <> "".
Proof.
  intros Hne Hall. destruct Hall as [|x l Hx Hall]; [done |].
  destruct l; simpl; [done |]. by destruct x.
Qed.



End TextFacts.

Module EditorFacts.

Import RolePage RolePageMore.

(** X12: the set of expanded profiles: a click on a profile changes the
    membership of that profile and of no other, and a second click on it
    brings the set back. *)
Theorem toggle_profile (i : string) (prev : gset string) :
  (forall j, j ∈ toggleProfile i prev <-> (j <> i /\ j ∈ prev) \/ (j = i /\ i ∉ prev)) /\
  toggleProfile i (toggleProfile i prev) = prev.
Proof.
  assert (H : forall s j,
    j ∈ toggleProfile i s <-> (j <> i /\ j ∈ s) \/ (j = i /\ i ∉ s)).
  { intros s j. unfold toggleProfile. case_bool_decide as E.
    - rewrite elem_of_difference, elem_of_singleton. split.
      + intros [Hj Hne]. by left.
      + intros [[Hne Hj] | [-> Hni]]; [done | contradiction].
    - rewrite elem_of_union, elem_of_singleton. split.
      + intros [Hj | ->]; [left | by right]. split; [| done]. by intros ->.
      + intros [[_ Hj] | [-> _]]; [by left | by right]. }
  split; [apply H |].
  apply set_eq. intros j.
  rewrite (H (toggleProfile i prev) j), (H prev j), (H prev i).
  destruct (decide (j = i)) as [-> | Hne]; [| tauto].
  destruct (decide (i ∈ prev)); tauto.
Qed.

Section Lines.

Variable trim : string -> string.
Hypothesis trim_empty : trim "" = "".

Lemma filter_all {A} (f : A -> bool) (l : list A) :
  Forall (fun x => f x = true) l -> List.filter f l = l.
Proof.
  induction 1 as [|x l Hx _ IH]; simpl; [done |]. by rewrite Hx, IH.
Qed.

(** X13: the lines editor of the job description gives back the list it
    was shown: a list of lines that are not blank and hold no line feed is
    stored again unchanged when its text is handed to the change handler;
    so is the empty list. *)
Theorem lines_round_trip (items : list string) :
  Forall (fun l => Text.single_line l = true /\ trim l <> "") items ->
  lines_change trim (lines_value (Some items)) = items.
Proof.
  intros Hall. unfold lines_change, lines_value.
  destruct items as [|x l].
  - simpl. by rewrite trim_empty, bool_decide_eq_true_2.
  - rewrite TextFacts.split_join; [| done |].
    + apply filter_all. eapply Forall_impl; [exact Hall |].
      intros y [_ Hy]. simpl. by rewrite (bool_decide_eq_false_2 _ Hy).
    + eapply Forall_impl; [exact Hall |]. by intros y [Hy _].
Qed.

(** X14: the change handler drops blank lines at once: a line feed typed
    at the end of the text stores the same list as before, and no stored
    line is blank or holds a line feed. *)
Theorem lines_change_drops_blank (value : string) :
  lines_change trim (value ++ Text.nl) = lines_change trim value /\
  Forall (fun l => Text.single_line l = true /\ trim l <> "")
    (lines_change trim value).
Proof.
  split.
  - unfold lines_change.
    rewrite TextFacts.split_lines_feed, List.filter_app. simpl.
    by rewrite trim_empty, bool_decide_eq_true_2, app_nil_r.
  - unfold lines_change. apply Forall_forall. intros l Hl.
    apply list_elem_of_In, List.filter_In in Hl as [Hl Ht]. split.
    + pose proof (TextFacts.split_lines_single value) as Hs.
      rewrite Forall_forall in Hs. apply Hs. by apply list_elem_of_In.
    + by apply negb_true_iff, bool_decide_eq_false in Ht.
Qed.

End Lines.

End EditorFacts.

Module InterviewMoreFacts.

Import RolePage InterviewMore.

(** X15: the status line of the interview helper and the badge of the
    selection grid go by different tests: the status line reads completed
    unless [interview_completed] is the boolean [false]; the two agree on an
    interview without texts whose flag is a boolean; with the flag unset and
    no text the status line reads completed and the badge is off; with the
    flag [false] and a transcription the status line reads not completed and
    the badge is on. *)
Theorem completion_indicators (candidateInterviews : gmap string Interview)
    (cand : Candidate) (i : Interview) :
  candidateInterviews !! id cand = Some i ->
  (statusCompleted i = false <-> interview_completed i = JBool false) /\
  (forall b, interview_completed i = JBool b ->
     Js.truthy (transcription i) = false -> Js.truthy (summary i) = false ->
     hasCompletedInterview candidateInterviews cand = b /\ statusCompleted i = b) /\
  (interview_completed i = JUndefined ->
     Js.truthy (transcription i) = false -> Js.truthy (summary i) = false ->
     statusCompleted i = true /\
     hasCompletedInterview candidateInterviews cand = false) /\
  (interview_completed i = JBool false -> Js.truthy (transcription i) = true ->
     statusCompleted i = false /\
     hasCompletedInterview candidateInterviews cand = true).
Proof.
  intros Hi. unfold hasCompletedInterview, statusCompleted. rewrite Hi.
  rewrite InterviewFacts.truthy_or.
  split; [| split; [| split]].
  - destruct (interview_completed i) as [| | [|] | |]; split; done.
  - intros b -> -> ->. by destruct b.
  - by intros -> -> ->.
  - intros -> ->. done.
Qed.

Section ManualFacts.

Variable trim : string -> string.
Variable Num : Type.

Lemma lines_list_nonblank (t : string) :
  Forall (fun s => s <> "") (lines_list trim t).
Proof.
  unfold lines_list. case_bool_decide; [constructor |].
  apply Forall_forall. intros s Hs.
  apply list_elem_of_In, List.filter_In in Hs as [_ Hs].
  by apply negb_true_iff, bool_decide_eq_false in Hs.
Qed.

Lemma list_or_undefined_Some (l l' : list string) :
  list_or_undefined l = Some l' -> l' = l /\ l <> [].
Proof. unfold list_or_undefined. destruct l; simpl; [done |]. by intros [= <-]. Qed.

(** X16: the payload of a manual interview never carries an empty
    piece: the summary and the transcription are left out or are non-empty
    texts, the strengths and the concerns are left out or are non-empty
    lists of non-empty lines, the responses are left out or a non-empty
    mapping; and the interview is always sent as completed. *)
Theorem manual_payload_no_blank (f : ManualForm Num) :
  let pl := manualPayload trim Num f in
  (forall t, p_summary Num pl = Some t -> t <> "") /\
  (forall t, p_transcription Num pl = Some t -> t <> "") /\
  (forall l, p_strengths Num pl = Some l -> l <> [] /\ Forall (fun s => s <> "") l) /\
  (forall l, p_concerns Num pl = Some l -> l <> [] /\ Forall (fun s => s <> "") l) /\
  (forall m, p_candidate_responses Num pl = Some m -> m <> ∅) /\
  p_fit_score Num pl = manualFitScore Num f /\
  p_interview_completed Num pl = true.
Proof.
  simpl.
  assert (Ht : forall x t, text_or_undefined trim x = Some t -> t <> "").
  { intros x t. unfold text_or_undefined. case_bool_decide; [done |]. by intros [= <-]. }
  assert (Hl : forall x l, list_or_undefined (lines_list trim x) = Some l ->
                 l <> [] /\ Forall (fun s => s <> "") l).
  { intros x l H. apply list_or_undefined_Some in H as [-> H].
    split; [done | apply lines_list_nonblank]. }
  repeat split; eauto; try (eapply Hl; eauto).
  intros m. case_bool_decide; [done |]. by intros [= <-].
Qed.

End ManualFacts.

End InterviewMoreFacts.

Module CardMoreFacts.

Import CandidateCard CardMore.

(** X17: a successful interview upload toggles the checklist item of
    the screening interview, it does not set it: the item ends up checked
    when it was unchecked and unchecked when it was checked, so a second
    upload undoes the mark of the first; the toggled mapping is PUT once and
    the other items stay as they were.  A rejected upload, or none (no file
    chosen), leaves the checklist alone, and a failed PUT of the toggle puts
    the item back. *)
Theorem upload_toggles_checklist (roleId candidateId f : string)
    (checklist : gmap string bool) :
  let item := "screening_interview_completed" in
  let trace := handleInterviewUpload roleId candidateId (Some f) Uploaded in
  let after := checklist_after_upload roleId candidateId checklist true trace in
  checked after item = negb (checked checklist item) /\
  (forall k, k <> item -> after !! k = checklist !! k) /\
  persisted_by_upload roleId candidateId checklist true trace =
    [toggled checklist item] /\
  checked (checklist_after_upload roleId candidateId after true trace) item =
    checked checklist item /\
  checklist_after_upload roleId candidateId checklist false trace = checklist /\
  (forall detail,
     checklist_after_upload roleId candidateId checklist true
       (handleInterviewUpload roleId candidateId (Some f) (Rejected detail)) =
       checklist /\
     persisted_by_upload roleId candidateId checklist true
       (handleInterviewUpload roleId candidateId (Some f) (Rejected detail)) = []) /\
  handleInterviewUpload roleId candidateId None Uploaded = [].
Proof.
  simpl. unfold checked, toggled.
  split; [by rewrite lookup_insert_eq |].
  split; [intros k Hk; by rewrite lookup_insert_ne |].
  split; [done |].
  split; [rewrite !lookup_insert_eq; simpl; apply negb_involutive |].
  done.
Qed.

End CardMoreFacts.

Module BadgeFacts.

Import RolePage RolePageMore.

(** X18: the status badge of a profile: a candidate sent to the client
    reads so in green, whatever else holds; one not pushed forward reads so
    in red; otherwise every column but outreach and follow-up wears blue, so
    a candidate whose column is missing or empty reads outreach and yet
    wears the blue of evaluation, where the board gives it the class of
    outreach. *)
Theorem status_badge (c : Candidate) :
  (Js.truthyb (sent_to_client c) = true ->
   badgeLabel c = "Sent to client" /\ badgeClass c = "bg-green-100 text-green-800") /\
  (Js.truthyb (sent_to_client c) = false ->
   Js.truthyb (not_pushing_forward c) = true ->
   badgeLabel c = "Not pushing" /\ badgeClass c = "bg-red-100 text-red-800") /\
  (Js.truthyb (sent_to_client c) = false ->
   Js.truthyb (not_pushing_forward c) = false ->
   (column c <> Some "outreach" -> column c <> Some "follow-up" ->
    badgeClass c = "bg-blue-100 text-blue-800") /\
   (column c = None \/ column c = Some "" ->
    badgeLabel c = "outreach" /\
    badgeClass c = "bg-blue-100 text-blue-800" /\
    Kanban.getColorClass c = "bg-slate-100 border-slate-400")).
Proof.
  unfold badgeLabel, badgeClass, Kanban.getColorClass.
  split; [by intros -> |]. split; [by intros -> -> |].
  intros -> ->. split.
  - intros H1 H2. by rewrite (bool_decide_eq_false_2 _ H1), (bool_decide_eq_false_2 _ H2).
  - by intros [-> | ->].
Qed.

End BadgeFacts.

Module FmtFacts.

Import Fmt.

Lemma append_nonempty_r (a b : string) : b <> "" -> (a ++ b)%string <> "".
Proof. intros Hb. destruct a; simpl; [done | discriminate]. Qed.






Section FormatFacts.

Variable trim : string -> string.

Lemma bullet_line_nonempty (x : Scalar) : (bullet ++ trim (String_of x))%string <> "".
Proof. done. Qed.

Lemma filter_nil_forallb {A} (f : A -> bool) (l : list A) :
  List.filter f l = [] <-> forallb (fun x => negb (f x)) l = true.
Proof.
  induction l as [|x l IH]; simpl; [done |].
  destruct (f x); simpl; [split; done | exact IH].
Qed.

Lemma formatValue_blank (v : Value) :
  formatValue trim v = "" <-> blank_value trim v = true.
Proof.
  destruct v as [[|s] | l]; cbn [formatValue blank_value].
  - done.
  - case_bool_decide as E; simpl; [done |].
    by rewrite bool_decide_eq_true.
  - rewrite <- filter_nil_forallb.
    destruct (List.filter (keep_item trim) l) as [|x k] eqn:Hk; [done |].
    split; [| done]. intros H. exfalso. revert H.
    apply TextFacts.join_nonempty; [done |].
    apply Forall_forall. intros y Hy.
    apply list_elem_of_In, in_map_iff in Hy as (z & <- & _).
    apply bullet_line_nonempty.
Qed.

Lemma formatValue_keep (e : string * Value) :
  formatValue trim e.2 <> "" -> keep_entry trim e = true.
Proof.
  unfold keep_entry. destruct e.2 as [[|s] | l]; simpl; [done | |].
  - case_bool_decide; [done |]. intros Hs. by rewrite (bool_decide_eq_false_2 _ Hs).
  - by destruct l.
Qed.

Lemma block_shown (e : string * Value) :
  formatValue trim e.2 <> "" ->
  block trim e = (label e.1 ++ Text.nl ++ formatValue trim e.2)%string /\
  block trim e <> "".
Proof.
  intros H. unfold block. rewrite (bool_decide_eq_false_2 _ H).
  split; [done |]. by apply append_nonempty_r.
Qed.

(** The entries that have something to show. *)
Lemma entries_shown (l : list (string * Value)) :
  List.filter (fun b => negb (bool_decide (b = "")))
    (map (block trim) (List.filter (keep_entry trim) l)) =
  map (fun e => (label e.1 ++ Text.nl ++ formatValue trim e.2)%string)
    (List.filter (fun e => negb (blank_value trim e.2)) l).
Proof.
  induction l as [|e l IH]; [done |]. cbn [List.filter].
  destruct (blank_value trim e.2) eqn:Hb; cbn [negb].
  - apply formatValue_blank in Hb.
    assert (Hblock : block trim e = "").
    { unfold block. by rewrite (bool_decide_eq_true_2 _ Hb). }
    destruct (keep_entry trim e); [| exact IH].
    cbn [map List.filter]. by rewrite Hblock, bool_decide_eq_true_2.
  - assert (Hf : formatValue trim e.2 <> "").
    { intros H. apply formatValue_blank in H. congruence. }
    rewrite (formatValue_keep e Hf). cbn [map List.filter].
    destruct (block_shown e Hf) as [Heq Hne].
    rewrite (bool_decide_eq_false_2 _ Hne). cbn [negb]. by rewrite Heq, IH.
Qed.

(** X20: the text for the extracted fields of a briefing is the
    placeholder when there is no object or no entry with something to show;
    otherwise it has one block per entry with something to show, in the
    order of the object and separated by an empty line, each block being
    the heading, a line feed and the formatted value.  An entry whose value
    is [null], a blank text, or a list with no item that is kept has nothing
    to show, wherever it stands. *)
Theorem extracted_fields_blocks (l : list (string * Value)) :
  let shown := List.filter (fun e => negb (blank_value trim e.2)) l in
  formatExtractedFields trim (Some l) =
    (if 0 <? length shown
     then Text.join (Text.nl ++ Text.nl)%string
            (map (fun e => (label e.1 ++ Text.nl ++ formatValue trim e.2)%string) shown)
     else placeholder) /\
  formatExtractedFields trim None = placeholder /\
  (forall a b k v,
     l = a ++ (k, v) :: b -> blank_value trim v = true ->
     formatExtractedFields trim (Some l) = formatExtractedFields trim (Some (a ++ b))).
Proof.
  intros shown. split; [| split; [done |]].
  - unfold formatExtractedFields. rewrite entries_shown. fold shown.
    by rewrite length_map.
  - intros a b k v -> Hv. unfold formatExtractedFields.
    rewrite !entries_shown, !List.filter_app. cbn [List.filter].
    change ((k, v).2) with v. by rewrite Hv.
Qed.

(** X21: the text for the extracted fields is never empty: with nothing
    to show it is the placeholder. *)
Theorem extracted_fields_never_empty (fields : option (list (string * Value))) :
  formatExtractedFields trim fields <> "".
Proof.
  destruct fields as [l|]; [| done].
  unfold formatExtractedFields. rewrite entries_shown.
  set (shown := List.filter _ l).
  destruct shown as [|e k] eqn:Hs; [done |].
  cbn [length Nat.ltb Nat.leb map].
  change (0 <? S (length (map (fun e0 : string * Value =>
            (label e0.1 ++ Text.nl ++ formatValue trim e0.2)%string) k))) with true.
  cbv iota. apply TextFacts.join_nonempty; [done |].
  apply Forall_forall. intros y Hy.
  apply list_elem_of_In in Hy.
  change (In y (map (fun e0 : string * Value =>
            (label e0.1 ++ Text.nl ++ formatValue trim e0.2)%string) (e :: k))) in Hy.
  apply in_map_iff in Hy as (z & <- & _).
  apply append_nonempty_r. done.
Qed.

End FormatFacts.

End FmtFacts.

Module MoreExamples.

Import RolePage RolePageMore EvaluationChat ChatMore Scenario Cases.

(** Bo's card is found again by its id, in the follow-up column. *)
Lemma card_origin_known_witness :
  Board.handleDragStart board "cand-2" = Some bo /\
  Kanban.getActiveColumn board "cand-2" = Some "follow-up" /\
  Kanban.isColumnId "follow-up" = true /\
  Js.truthy (Kanban.getActiveColumn board "cand-2") = true.
Proof.
  apply (BoardMore.card_origin_known board "follow-up" [bo] bo).
  - unfold board. repeat constructor; rewrite ?elem_of_cons, ?elem_of_nil;
      simpl; intuition discriminate.
  - simpl. auto.
  - simpl. auto.
Defined.

(** A drop on Bo's card resolves to his column, follow-up. *)
Lemma drop_target_and_color_witness :
  ((("cand-2" ∈ Kanban.validColumns) /\ "follow-up" = "cand-2") \/
   (("cand-2" ∉ Kanban.validColumns) /\ "follow-up" <> "" /\
    exists t, findCandidate board "cand-2" = Some t /\ column t = Some "follow-up")) /\
  (("follow-up" ∈ Kanban.validColumns) ->
   forall c, Kanban.newColor c "follow-up" = Some "amber-solid").
Proof.
  apply (BoardMore.drop_target_and_color board "cand-2" "follow-up"). reflexivity.
Defined.

Lemma reply_saved_twice_witness :
  requests
    (elapse 400
       (handleSend_reply setEvaluationMessages (Some persistEvaluationChatNow)
          [hello] reply waiting page_pending).2) =
  [(0, PutEvaluationChat "role-1" [hello; mkMessage assistant "Ana is the best fit."]);
   (400, PutEvaluationChat "role-1" [hello; mkMessage assistant "Ana is the best fit."])].
Proof.
  apply (PersisterMore.reply_saved_twice [hello] reply waiting page_pending "role-1" 400).
  - reflexivity.
  - discriminate.
  - unfold debounce. lia.
Defined.

Lemma clear_cancels_save_witness :
  evaluationMessages (handleClearEvaluationChat true page_pending) = [] /\
  timer (handleClearEvaluationChat true page_pending) = None /\
  requests (handleClearEvaluationChat true page_pending) =
    [(0, DeleteEvaluationChat "role-1")] /\
  requests (elapse 5000 (handleClearEvaluationChat true page_pending)) =
    requests (handleClearEvaluationChat true page_pending) /\
  handleClearEvaluationChat false page_pending = page_pending.
Proof.
  apply (PersisterMore.clear_cancels_save page_pending "role-1" 5000).
  - reflexivity.
  - discriminate.
Defined.

Lemma load_writes_back_witness :
  requests (elapse 400 (loadedEvaluationChat (Some [hello; hint]) page0)) =
    [(400, PutEvaluationChat "role-1" [hello; hint])].
Proof.
  apply (PersisterMore.load_writes_back [hello; hint] page0 "role-1" 400).
  - reflexivity.
  - discriminate.
  - discriminate.
  - unfold debounce. lia.
Defined.

Lemma reply_undoes_clear_witness :
  exists messagesWithUser c1 p1,
    handleSend_request trimSpaces (Some "role-1") setEvaluationMessages
      [hello; hint] typing page0 = Some (messagesWithUser, c1, p1) /\
    let cleared := handleClearEvaluationChat true (elapse 100 p1) in
    let p3 :=
      (handleSend_reply setEvaluationMessages (Some persistEvaluationChatNow)
         messagesWithUser reply c1 (elapse 900 cleared)).2 in
    evaluationMessages cleared = [] /\
    evaluationMessages p3 =
      [hello; hint; hello; mkMessage assistant "Ana is the best fit."].
Proof.
  destruct (PersisterMore.reply_undoes_clear trimSpaces (Some "role-1") [hello; hint]
              typing page0 "role-1" 100 900 reply eq_refl)
    as (m & c1 & p1 & H1 & _ & H2 & H3 & _);
    [discriminate | discriminate | reflexivity |].
  exists m, c1, p1. split; [exact H1 |]. split; [exact H2 | exact H3].
Defined.

Lemma error_entry_never_empty_witness :
  errorContent err_timeout = timeout_text /\
  errorContent err_validation = "question is required; too long" /\
  errorContent err_validation <> "".
Proof.
  split; [reflexivity |]. split; [reflexivity |].
  apply (PersisterMore.error_entry_never_empty [hello] err_validation waiting page0
           "role-1" eq_refl).
  discriminate.
Defined.



Lemma lines_round_trip_witness :
  lines_change trimSpaces (lines_value (Some duties)) = duties.
Proof.
  apply (EditorFacts.lines_round_trip trimSpaces eq_refl duties).
  unfold duties. repeat constructor; discriminate.
Defined.

Lemma lines_change_drops_blank_witness :
  lines_change trimSpaces ("Build the API" ++ Text.nl)%string =
  lines_change trimSpaces "Build the API".
Proof.
  apply (EditorFacts.lines_change_drops_blank trimSpaces eq_refl "Build the API").
Defined.

Lemma completion_indicators_witness :
  InterviewMore.statusCompleted bare_interview = true /\
  hasCompletedInterview interviews ana = false.
Proof.
  destruct (InterviewMoreFacts.completion_indicators interviews ana bare_interview
              eq_refl) as (_ & _ & H & _).
  apply H; reflexivity.
Defined.

(** The handlers on texts, run. *)
Example label_examples :
  Fmt.label "hiring_manager" = "Hiring Manager" /\
  Fmt.label "timeline_notes" = "Timeline" /\
  Fmt.label "q3-plan_b" = "Q3-Plan B".
Proof. repeat split. Qed.

Example extracted_fields_example :
  Fmt.formatExtractedFields trimSpaces (Some briefing_fields) =
    ("Priorities" ++ Text.nl ++ Fmt.bullet ++ "ship in May" ++ Text.nl ++ Text.nl ++
     "Hiring Manager" ++ Text.nl ++ "Dana")%string /\
  Fmt.formatExtractedFields trimSpaces (Some [("budget_notes", Fmt.VScalar Fmt.SNull)]) =
    "No extracted fields".
Proof. split; reflexivity. Qed.

Example manual_lines_example :
  InterviewMore.lines_list trimSpaces
    ("  clear communicator " ++ Text.nl ++ "   " ++ Text.nl ++ "owns outcomes")%string =
  ["clear communicator"; "owns outcomes"].
Proof. reflexivity. Qed.

End MoreExamples.
